(** * ODAS control panel: the orchestration core and its evaluation loop

    A shallow embedding of [ODAS_ControlPanel.jsx]: the threshold evaluator
    [orchestrateControl], the metric sampler and status derivation of
    [runOdasScan], and the health aggregate of the Global Control Panel's
    snapshot handler.

    JavaScript numbers are IEEE 754 binary64 values.  They are modelled by
    [spec_float] at precision 53 and maximal exponent 1024, with the
    arithmetic and comparisons of the standard library's [SpecFloat], so
    that rounding, NaN and the infinities behave as they do in the engine.
    The statements quantify over all of [spec_float], the binary64 values
    among them; the numbers of the examples are binary64 values, obtained by
    correct rounding of their literals. *)

From Stdlib Require Import ZArith List String Ascii Bool Lia.
From Stdlib Require Import DecimalString.
From Stdlib Require Import SpecFloat.
From Stdlib Require Import Permutation.
From ExtLib Require Import Structures.Monad Structures.MonadExc.
From ExtLib Require Import Data.Monads.EitherMonad.
Import ListNotations.
Import MonadNotation.
Local Open Scope monad_scope.
Local Open Scope string_scope.

(** ** The ECMAScript operations the program relies on *)

Module JS.

Definition number := spec_float.

Definition prec : Z := 53.
Definition emax : Z := 1024.

Definition NaN : number := S754_nan.
Definition Infinity : number := S754_infinity false.

(** An integer literal. *)
Definition int (z : Z) : number := binary_normalize prec emax z 0 false.

(** A decimal literal [a/b] with [a] and [b] exactly representable: the
    literal denotes the binary64 nearest to the quotient, which is what the
    correctly rounded division of [a] by [b] returns. *)
Definition dec (a b : Z) : number := SFdiv prec emax (int a) (int b).

Definition add : number -> number -> number := SFadd prec emax.
Definition sub : number -> number -> number := SFsub prec emax.
Definition mul : number -> number -> number := SFmul prec emax.

(** [x < y], [x > y] and [x == y] on numbers; all false when an operand is
    NaN. *)
Definition lt (x y : number) : bool := SFltb x y.
Definition gt (x y : number) : bool := SFltb y x.
Definition eq (x y : number) : bool := SFeqb x y.
Definition le (x y : number) : bool := SFleb x y.

Definition isNaN (x : number) : bool :=
  match x with S754_nan => true | _ => false end.

(** A property value of the metrics object: a number, or [Undefined] when
    the property is absent. *)
Inductive Value :=
  | Undefined
  | Number (x : number).

Definition ToNumber (v : Value) : number :=
  match v with
  | Undefined => NaN
  | Number x => x
  end.

Inductive Exception := TypeError.

(** Completion of an evaluation: [inr] a value, [inl] a thrown exception. *)
Definition Completion : Type -> Type := sum Exception.

(** [Math.min] and [Math.max] (ECMAScript 21.3.2.25 and 21.3.2.24): NaN if
    any argument is NaN, and -0 is smaller than +0. *)
Definition min_step (lowest x : number) : number :=
  match lowest, x with
  | S754_nan, _ => S754_nan
  | _, S754_nan => S754_nan
  | S754_zero false, S754_zero true => x
  | _, _ => if lt x lowest then x else lowest
  end.

Definition max_step (highest x : number) : number :=
  match highest, x with
  | S754_nan, _ => S754_nan
  | _, S754_nan => S754_nan
  | S754_zero true, S754_zero false => x
  | _, _ => if gt x highest then x else highest
  end.

Definition Math_min (args : list number) : number :=
  fold_left min_step args (S754_infinity false).

Definition Math_max (args : list number) : number :=
  fold_left max_step args (S754_infinity true).

(** *** Number to string *)

Definition digits (n : Z) : string :=
  NilZero.string_of_uint (N.to_uint (Z.to_N n)).

Fixpoint zeros (n : nat) : string :=
  match n with
  | O => ""
  | S n' => String "0" (zeros n')
  end.

(** The integer nearest to [m * 2^e * 10^f]; the larger one when two are
    equally near. *)
Definition scaled_round (m : positive) (e : Z) (f : nat) : Z :=
  let p := (Zpos m * 10 ^ Z.of_nat f)%Z in
  if (0 <=? e)%Z then (p * 2 ^ e)%Z
  else ((2 * p + 2 ^ (- e)) / 2 ^ (1 - e))%Z.

(** [10^21 <= m * 2^e] *)
Definition at_least_1e21 (m : positive) (e : Z) : bool :=
  if (0 <=? e)%Z then (10 ^ 21 <=? Zpos m * 2 ^ e)%Z
  else (10 ^ 21 * 2 ^ (- e) <=? Zpos m)%Z.

(** Number::toString for a finite integral value [X >= 10^21] whose binary64
    is [x]: the shortest digit string [s] of [k] digits such that
    [s * 10^(n-k)] rounds to [x], the nearest to [X] when several fit,
    printed in exponent notation. *)
Definition candidate (x : number) (X q s : Z) : option (Z * Z) :=
  if SFeqb (int (s * q)) x then Some (s, Z.abs (X - s * q)) else None.

Definition pick (lo hi : option (Z * Z)) : option Z :=
  match lo, hi with
  | Some (s, d), Some (s', d') =>
      if (d <? d')%Z then Some s
      else if (d' <? d)%Z then Some s'
      else if Z.even s then Some s else Some s'
  | Some (s, _), None => Some s
  | None, Some (s', _) => Some s'
  | None, None => None
  end.

Fixpoint shortest (x : number) (X : Z) (d : nat) (k fuel : nat) : Z * nat :=
  match fuel with
  | O => (X, d)
  | S fuel' =>
      let q := (10 ^ Z.of_nat (d - k))%Z in
      let lo := (X / q)%Z in
      match pick (candidate x X q lo) (candidate x X q (lo + 1)) with
      | Some s => (s, k)
      | None => shortest x X d (S k) fuel'
      end
  end.

Definition exponential (X : Z) (x : number) : string :=
  let d := String.length (digits X) in
  let '(s, k) := shortest x X d 1 (d - 1) in
  let '(s, n) := if (s =? 10 ^ Z.of_nat k)%Z then (1%Z, S d) else (s, d) in
  let ds := digits s in
  let ds := match ds with
            | String c EmptyString => ds
            | String c rest => String c (String "." rest)
            | EmptyString => ds
            end in
  ds ++ "e+" ++ digits (Z.of_nat (n - 1)).

(** [Number.prototype.toFixed(f)] (ECMAScript 21.1.3.3) for [0 <= f <= 100]. *)
Definition toFixed (x : number) (f : nat) : string :=
  match x with
  | S754_nan => "NaN"
  | S754_infinity false => "Infinity"
  | S754_infinity true => "-Infinity"
  | S754_zero _ =>
      match f with O => "0" | _ => "0." ++ zeros f end
  | S754_finite sx m e =>
      let s := if sx then "-" else "" in
      if at_least_1e21 m e then s ++ exponential (Zpos m * 2 ^ e) (S754_finite false m e)
      else
        let n := scaled_round m e f in
        let ms := digits n in
        let ms :=
          match f with
          | O => ms
          | _ =>
              let k := String.length ms in
              let ms := if (k <=? f)%nat then zeros (f + 1 - k) ++ ms else ms in
              let k := String.length ms in
              substring 0 (k - f) ms ++ "." ++ substring (k - f) f ms
          end in
        s ++ ms
  end.

(** Calling [toFixed] on a property value: reading a method of [undefined]
    throws a TypeError. *)
Definition call_toFixed (v : Value) (f : nat) : Completion string :=
  match v with
  | Undefined => raise TypeError
  | Number x => ret (toFixed x f)
  end.

(** The string of an array length inside a template literal. *)
Definition string_of_length (n : nat) : string :=
  NilZero.string_of_uint (Nat.to_uint n).

End JS.

(** ** ODAS control panel: thresholds, evaluator, sampler and scan *)

Module ODAS.

(** [INTERVENTION_THRESHOLDS] *)
Definition MAX_VOLATILITY : JS.number := JS.dec 15 100.
Definition MIN_LIQUIDITY : JS.number := JS.int 100000.
Definition MAX_LATENCY : JS.number := JS.int 150.
Definition MIN_SENTIMENT : JS.number := JS.dec 40 100.
Definition MAX_ANOMALY_SCORE : JS.number := JS.dec 85 100.

(** The metrics object [pathData]. *)
Record PathData := {
  assetVolatility : JS.Value;
  marketLiquidity : JS.Value;
  systemLatency : JS.Value;
  publicSentiment : JS.Value;
  anomalyScore : JS.Value;
  lastScan : string
}.

Record Intervention := {
  path : string;
  description : string;
  severity : string
}.

Definition push {A : Type} (arr : list A) (x : A) : list A := arr ++ [x].

Definition orchestrateControl (pathData : PathData)
  : JS.Completion (list Intervention) :=
  let interventions : list Intervention := [] in
  interventions <-
    (if JS.gt (JS.ToNumber (assetVolatility pathData)) MAX_VOLATILITY then
       let pct := JS.toFixed (JS.mul (JS.ToNumber (assetVolatility pathData)) (JS.int 100)) 1 in
       ret (push interventions
              {| path := "Finansial";
                 description := "Volatilitas aset Kritis (" ++ pct
                                ++ "%). Memerlukan Chronos Executor (CE) Lock.";
                 severity := "Kritis" |})
     else ret interventions) ;;
  interventions <-
    (if JS.lt (JS.ToNumber (marketLiquidity pathData)) MIN_LIQUIDITY then
       amount <- JS.call_toFixed (marketLiquidity pathData) 0 ;;
       ret (push interventions
              {| path := "Finansial";
                 description := "Likuiditas rendah: $" ++ amount
                                ++ ". Memerlukan injeksi dana/stabilisasi.";
                 severity := "Peringatan" |})
     else ret interventions) ;;
  interventions <-
    (if JS.gt (JS.ToNumber (systemLatency pathData)) MAX_LATENCY then
       ms <- JS.call_toFixed (systemLatency pathData) 0 ;;
       ret (push interventions
              {| path := "Infrastruktur";
                 description := "Latency sistem Kritis (" ++ ms
                                ++ "ms). Memerlukan realokasi sumber daya I/O.";
                 severity := "Kritis" |})
     else ret interventions) ;;
  interventions <-
    (if JS.lt (JS.ToNumber (publicSentiment pathData)) MIN_SENTIMENT then
       let pct := JS.toFixed (JS.mul (JS.ToNumber (publicSentiment pathData)) (JS.int 100)) 0 in
       ret (push interventions
              {| path := "Persona";
                 description := "Sentimen Publik Rendah (" ++ pct
                                ++ "%). Memerlukan Narasi Frame Shift Otomatis.";
                 severity := "Peringatan" |})
     else ret interventions) ;;
  interventions <-
    (if JS.gt (JS.ToNumber (anomalyScore pathData)) MAX_ANOMALY_SCORE then
       let pct := JS.toFixed (JS.mul (JS.ToNumber (anomalyScore pathData)) (JS.int 100)) 0 in
       ret (push interventions
              {| path := "Sensor";
                 description := "Anomali Data Masif Terdeteksi (" ++ pct
                                ++ "%). Memerlukan Recursive Resonance Alert (RRA).";
                 severity := "Kritis" |})
     else ret interventions) ;;
  ret interventions.

(** The initial [pathData] state of [App]. *)
Definition initialPathData (now : string) : PathData :=
  {| assetVolatility := JS.Number (JS.dec 5 100);
     marketLiquidity := JS.Number (JS.int 500000);
     systemLatency := JS.Number (JS.int 50);
     publicSentiment := JS.Number (JS.dec 80 100);
     anomalyScore := JS.Number (JS.dec 30 100);
     lastScan := now |}.

(** What one scan takes from its environment: the five results of
    [Math.random()] in call order, the clock reading, and how many [addDoc]
    calls succeed before one rejects ([None]: none rejects). *)
Record Tick := {
  random1 : JS.number;
  random2 : JS.number;
  random3 : JS.number;
  random4 : JS.number;
  random5 : JS.number;
  clock : string;
  serverTimestamp : string;
  writes_before_failure : option nat
}.

(** The [newPathData] object literal of [runOdasScan]. *)
Definition newPathData (pathData : PathData) (t : Tick) : PathData :=
  {| assetVolatility :=
       JS.Number (JS.Math_min [JS.dec 5 10;
         JS.add (JS.ToNumber (assetVolatility pathData))
                (JS.sub (JS.mul (random1 t) (JS.dec 1 10)) (JS.dec 5 100))]);
     marketLiquidity :=
       JS.Number (JS.Math_max [JS.int 0;
         JS.add (JS.ToNumber (marketLiquidity pathData))
                (JS.sub (JS.mul (random2 t) (JS.int 50000)) (JS.int 30000))]);
     systemLatency :=
       JS.Number (JS.Math_min [JS.int 300;
         JS.add (JS.ToNumber (systemLatency pathData))
                (JS.sub (JS.mul (random3 t) (JS.int 40)) (JS.int 20))]);
     publicSentiment :=
       JS.Number (JS.Math_min [JS.int 1;
         JS.add (JS.ToNumber (publicSentiment pathData))
                (JS.sub (JS.mul (random4 t) (JS.dec 2 10)) (JS.dec 1 10))]);
     anomalyScore :=
       JS.Number (JS.Math_min [JS.int 1;
         JS.add (JS.ToNumber (anomalyScore pathData))
                (JS.sub (JS.mul (random5 t) (JS.dec 3 10)) (JS.dec 1 10))]);
     lastScan := clock t |}.

(** A document of the [odas_interventions] collection. *)
Record Doc := {
  doc_fields : Intervention;
  doc_timestamp : string
}.

(** The state of [App] that a scan reads and writes, with the collection
    behind [interventionCollectionRef]. *)
Record App := {
  pathData : PathData;
  odasStatus : string;
  isSimulating : bool;
  interventionCollectionRef : bool;
  collection : list Doc
}.

Definition setPathData (p : PathData) (a : App) : App :=
  {| pathData := p; odasStatus := odasStatus a;
     isSimulating := isSimulating a;
     interventionCollectionRef := interventionCollectionRef a;
     collection := collection a |}.

Definition setOdasStatus (s : string) (a : App) : App :=
  {| pathData := pathData a; odasStatus := s;
     isSimulating := isSimulating a;
     interventionCollectionRef := interventionCollectionRef a;
     collection := collection a |}.

(** The [for] loop of [addDoc] calls inside [try]: the first rejection
    leaves the loop, the documents written before it stay. *)
Definition logInterventions (newInterventions : list Intervention) (t : Tick)
    (a : App) : App :=
  let written :=
    match writes_before_failure t with
    | None => newInterventions
    | Some k => firstn k newInterventions
    end in
  {| pathData := pathData a; odasStatus := odasStatus a;
     isSimulating := isSimulating a;
     interventionCollectionRef := interventionCollectionRef a;
     collection := collection a ++
       map (fun i => {| doc_fields := i; doc_timestamp := serverTimestamp t |})
           written |}.

Definition runOdasScan (t : Tick) (a : App) : App :=
  if negb (isSimulating a) || negb (interventionCollectionRef a) then a
  else
    let newPathData := newPathData (pathData a) t in
    let a := setPathData newPathData a in
    match orchestrateControl newPathData with
    | inl _ => a
    | inr newInterventions =>
        if (0 <? List.length newInterventions)%nat then
          let a := setOdasStatus
                     ("Intervensi "
                      ++ JS.string_of_length (List.length newInterventions)
                      ++ " Kritis") a in
          logInterventions newInterventions t a
        else setOdasStatus "ODAS Operasional Normal" a
    end.

(** The scans fired by the interval timer, one per tick, oldest first. *)
Definition runScans (ticks : list Tick) (a : App) : App :=
  fold_left (fun a t => runOdasScan t a) ticks a.

End ODAS.

(** ** Global Control Panel: health aggregate of the snapshot handler *)

Module GCP.

(** An element of [fetchedInterventions]. *)
Record Fetched := {
  id : string;
  path : string;
  description : string;
  severity : string;
  timestamp : string
}.

Record StrategicMetrics := {
  totalAssets : nat;
  personaRating : JS.number;
  totalInterventions : nat;
  systemHealth : string
}.

Definition criticalCount (fetchedInterventions : list Fetched) : nat :=
  List.length (filter (fun i => String.eqb (severity i) "Kritis") fetchedInterventions).

(** The updater passed to [setStrategicMetrics] in the [onSnapshot]
    callback. *)
Definition onSnapshot (fetchedInterventions : list Fetched)
    (prev : StrategicMetrics) : StrategicMetrics :=
  let criticalCount := criticalCount fetchedInterventions in
  {| totalAssets := totalAssets prev;
     personaRating := personaRating prev;
     totalInterventions := List.length fetchedInterventions;
     systemHealth :=
       if (5 <? criticalCount)%nat then "Kritis (High Alert)"
       else if (0 <? criticalCount)%nat then "Peringatan"
       else "Optimal" |}.

End GCP.

(** ** The vocabulary of the specification

    The threshold table, the evaluation order and the per-metric severities
    as the specification words them, to be compared with the code above. *)

Module Spec.

Inductive Metric := Volatility | Liquidity | Latency | Sentiment | Anomaly.

Inductive BoundKind := Upper | Lower.

Definition evaluation_order : list Metric :=
  [Volatility; Liquidity; Latency; Sentiment; Anomaly].

Definition bound_kind (m : Metric) : BoundKind :=
  match m with
  | Volatility => Upper
  | Liquidity => Lower
  | Latency => Upper
  | Sentiment => Lower
  | Anomaly => Upper
  end.

Definition threshold (m : Metric) : JS.number :=
  match m with
  | Volatility => JS.dec 15 100
  | Liquidity => JS.int 100000
  | Latency => JS.int 150
  | Sentiment => JS.dec 40 100
  | Anomaly => JS.dec 85 100
  end.

Definition field (m : Metric) (s : ODAS.PathData) : JS.Value :=
  match m with
  | Volatility => ODAS.assetVolatility s
  | Liquidity => ODAS.marketLiquidity s
  | Latency => ODAS.systemLatency s
  | Sentiment => ODAS.publicSentiment s
  | Anomaly => ODAS.anomalyScore s
  end.

(** A value is beyond a bound when it is strictly above an upper bound or
    strictly below a lower one. *)
Definition beyond (k : BoundKind) (v bound : JS.number) : bool :=
  match k with
  | Upper => JS.gt v bound
  | Lower => JS.lt v bound
  end.

(** The field of metric [m] is present in snapshot [s] and violates its
    bound. *)
Definition violates (s : ODAS.PathData) (m : Metric) : bool :=
  match field m s with
  | JS.Undefined => false
  | JS.Number v => beyond (bound_kind m) v (threshold m)
  end.

Definition well_formed (s : ODAS.PathData) : Prop :=
  forall m, field m s <> JS.Undefined.

Definition path_of (m : Metric) : string :=
  match m with
  | Volatility | Liquidity => "Finansial"
  | Latency => "Infrastruktur"
  | Sentiment => "Persona"
  | Anomaly => "Sensor"
  end.

Definition Critical : string := "Kritis".
Definition Warning : string := "Peringatan".

Definition severity_of (m : Metric) : string :=
  match m with
  | Volatility | Latency | Anomaly => Critical
  | Liquidity | Sentiment => Warning
  end.

(** The fixed text that opens the description of a record of metric [m];
    it tells the two Financial records apart. *)
Definition headline (m : Metric) : string :=
  match m with
  | Volatility => "Volatilitas aset Kritis ("
  | Liquidity => "Likuiditas rendah: $"
  | Latency => "Latency sistem Kritis ("
  | Sentiment => "Sentimen Publik Rendah ("
  | Anomaly => "Anomali Data Masif Terdeteksi ("
  end.

(** Record [r] is the record of metric [m]. *)
Definition record_of (m : Metric) (r : ODAS.Intervention) : bool :=
  String.eqb (ODAS.path r) (path_of m)
  && String.prefix (headline m) (ODAS.description r).

(** [sub] occurs in [s]. *)
Fixpoint includes (sub s : string) : bool :=
  String.prefix sub s
  || match s with
     | EmptyString => false
     | String _ s' => includes sub s'
     end.

End Spec.

Import ODAS Spec.

(** ** The evaluator, one metric at a time *)

(** The record pushed for metric [m] on snapshot [s]. *)
Definition expected (s : PathData) (m : Metric) : Intervention :=
  let x := JS.ToNumber (field m s) in
  match m with
  | Volatility =>
      {| path := "Finansial";
         description := "Volatilitas aset Kritis ("
                        ++ JS.toFixed (JS.mul x (JS.int 100)) 1
                        ++ "%). Memerlukan Chronos Executor (CE) Lock.";
         severity := "Kritis" |}
  | Liquidity =>
      {| path := "Finansial";
         description := "Likuiditas rendah: $" ++ JS.toFixed x 0
                        ++ ". Memerlukan injeksi dana/stabilisasi.";
         severity := "Peringatan" |}
  | Latency =>
      {| path := "Infrastruktur";
         description := "Latency sistem Kritis (" ++ JS.toFixed x 0
                        ++ "ms). Memerlukan realokasi sumber daya I/O.";
         severity := "Kritis" |}
  | Sentiment =>
      {| path := "Persona";
         description := "Sentimen Publik Rendah ("
                        ++ JS.toFixed (JS.mul x (JS.int 100)) 0
                        ++ "%). Memerlukan Narasi Frame Shift Otomatis.";
         severity := "Peringatan" |}
  | Anomaly =>
      {| path := "Sensor";
         description := "Anomali Data Masif Terdeteksi ("
                        ++ JS.toFixed (JS.mul x (JS.int 100)) 0
                        ++ "%). Memerlukan Recursive Resonance Alert (RRA).";
         severity := "Kritis" |}
  end.

Definition raised (s : PathData) (m : Metric) : list Intervention :=
  if violates s m then [expected s m] else [].

(** ** The description formats *)

Definition percentage (m : Metric) : bool :=
  match m with
  | Volatility | Sentiment | Anomaly => true
  | Liquidity | Latency => false
  end.

(** The display precision as the specification words it: percentages with
    one decimal, the currency amount and the latency with none. *)
Definition display_decimals (m : Metric) : nat :=
  if percentage m then 1%nat else 0%nat.

(** The precision the evaluator formats with. *)
Definition description_decimals (m : Metric) : nat :=
  match m with
  | Volatility => 1%nat
  | Liquidity | Latency | Sentiment | Anomaly => 0%nat
  end.

(** The number that is printed: percentages are scaled by 100. *)
Definition printed (m : Metric) (s : PathData) : JS.number :=
  let x := JS.ToNumber (field m s) in
  if percentage m then JS.mul x (JS.int 100) else x.

(** The text that follows the number in the description of metric [m]. *)
Definition closing (m : Metric) : string :=
  match m with
  | Volatility => "%). Memerlukan Chronos Executor (CE) Lock."
  | Liquidity => ". Memerlukan injeksi dana/stabilisasi."
  | Latency => "ms). Memerlukan realokasi sumber daya I/O."
  | Sentiment => "%). Memerlukan Narasi Frame Shift Otomatis."
  | Anomaly => "%). Memerlukan Recursive Resonance Alert (RRA)."
  end.

(** Every description of the evaluator's output on [s] contains the printed
    value of its metric with [decimals] decimals. *)
Definition embeds_value (decimals : Metric -> nat) (s : PathData) : Prop :=
  exists l, orchestrateControl s = inr l /\
    forall r m, In r l -> record_of m r = true ->
      includes (JS.toFixed (printed m s) (decimals m)) (description r) = true.

(** ** Failure on malformed snapshots, as the specification words it *)

Definition fails_exactly_when_malformed (s : PathData) : Prop :=
  (exists e, orchestrateControl s = inl e) <-> ~ well_formed s.

(** ** Ranges of the sampled fields *)

(** The documented range of each field. *)
Definition within (lo hi : JS.number) (v : JS.Value) : Prop :=
  exists x, v = JS.Number x /\ JS.le lo x = true /\ JS.le x hi = true.

Definition documented_ranges (p : PathData) : Prop :=
  within (JS.int 0) (JS.dec 5 10) (assetVolatility p) /\
  within (JS.int 0) JS.Infinity (marketLiquidity p) /\
  within (JS.int 0) (JS.int 300) (systemLatency p) /\
  within (JS.int 0) (JS.int 1) (publicSentiment p) /\
  within (JS.int 0) (JS.int 1) (anomalyScore p).

(** The clamps the sampler applies: one side per field. *)
Definition at_most (c : JS.number) (v : JS.Value) : Prop :=
  exists x, v = JS.Number x /\ (JS.isNaN x = true \/ JS.le x c = true).

Definition at_least (c : JS.number) (v : JS.Value) : Prop :=
  exists x, v = JS.Number x /\ (JS.isNaN x = true \/ JS.le c x = true).

Definition clamped (p : PathData) : Prop :=
  at_most (JS.dec 5 10) (assetVolatility p) /\
  at_least (JS.int 0) (marketLiquidity p) /\
  at_most (JS.int 300) (systemLatency p) /\
  at_most (JS.int 1) (publicSentiment p) /\
  at_most (JS.int 1) (anomalyScore p).

(** The scan passes its guard: the simulation is on and the collection
    reference is set. *)
Definition running (a : App) : bool :=
  isSimulating a && interventionCollectionRef a.

(** ** Example data *)

Definition snapshot (vol liq lat sen ano : JS.number) : PathData :=
  {| assetVolatility := JS.Number vol;
     marketLiquidity := JS.Number liq;
     systemLatency := JS.Number lat;
     publicSentiment := JS.Number sen;
     anomalyScore := JS.Number ano;
     lastScan := "10:00:00" |}.

(** {volatility: 0.20, liquidity: 500000, latency: 50, sentiment: 0.80,
    anomaly: 0.30} *)
Definition volatile_snapshot : PathData :=
  snapshot (JS.dec 20 100) (JS.int 500000) (JS.int 50) (JS.dec 80 100)
           (JS.dec 30 100).

(** {volatility: 0.30, liquidity: 50000, latency: 200, sentiment: 0.20,
    anomaly: 0.90}: every threshold is crossed. *)
Definition alarming_snapshot : PathData :=
  snapshot (JS.dec 30 100) (JS.int 50000) (JS.int 200) (JS.dec 20 100)
           (JS.dec 90 100).

(** {volatility: 0.05, liquidity: 500000, latency: 150, sentiment: 0.80,
    anomaly: 0.30}: the latency sits on its bound. *)
Definition latency_at_bound : PathData :=
  snapshot (JS.dec 5 100) (JS.int 500000) (JS.int 150) (JS.dec 80 100)
           (JS.dec 30 100).

(** {volatility: 0.05, liquidity: 500000, latency: 50, sentiment: 0.333,
    anomaly: 0.30} *)
Definition gloomy_snapshot : PathData :=
  snapshot (JS.dec 5 100) (JS.int 500000) (JS.int 50) (JS.dec 333 1000)
           (JS.dec 30 100).

(** The record the evaluator returns on [gloomy_snapshot]. *)
Definition gloomy_record : Intervention :=
  {| path := "Persona";
     description := "Sentimen Publik Rendah (33%). Memerlukan Narasi Frame Shift Otomatis.";
     severity := "Peringatan" |}.

(** {volatility: 0.05, liquidity: 500000, sentiment: 0.80, anomaly: 0.30}:
    no systemLatency. *)
Definition snapshot_without_latency : PathData :=
  {| assetVolatility := JS.Number (JS.dec 5 100);
     marketLiquidity := JS.Number (JS.int 500000);
     systemLatency := JS.Undefined;
     publicSentiment := JS.Number (JS.dec 80 100);
     anomalyScore := JS.Number (JS.dec 30 100);
     lastScan := "10:00:00" |}.

(** [App] once the database is ready, with metrics [p]. *)
Definition readyApp (p : PathData) : App :=
  {| pathData := p;
     odasStatus := "ODAS Online";
     isSimulating := true;
     interventionCollectionRef := true;
     collection := [] |}.

(** [App] before the first scan. *)
Definition initialApp : App := readyApp (initialPathData "10:00:00").

(** A tick on which every [Math.random()] call returns [r]. *)
Definition draws (r : JS.number) : Tick :=
  {| random1 := r; random2 := r; random3 := r; random4 := r; random5 := r;
     clock := "10:00:05";
     serverTimestamp := "10:00:06";
     writes_before_failure := None |}.

Definition low_draws : Tick := draws (JS.int 0).
Definition middle_draws : Tick := draws (JS.dec 5 10).

(** A fetched log of [criticals] Kritis entries and [warnings] Peringatan
    entries. *)
Definition entry (sev : string) : GCP.Fetched :=
  {| GCP.id := "doc"; GCP.path := "Finansial"; GCP.description := "";
     GCP.severity := sev; GCP.timestamp := "N/A" |}.

Definition log_of (criticals warnings : nat) : list GCP.Fetched :=
  repeat (entry "Kritis") criticals ++ repeat (entry "Peringatan") warnings.

Definition offline : GCP.StrategicMetrics :=
  {| GCP.totalAssets := 0; GCP.personaRating := JS.int 0;
     GCP.totalInterventions := 0; GCP.systemHealth := "Offline" |}.

(** A boolean hypothesis that evaluates to [false]. *)
Ltac evaluates_to_false H :=
  match type of H with
  | ?b = true =>
      let F := fresh "F" in
      assert (F : b = false) by (vm_compute; reflexivity);
      rewrite F in H; discriminate H
  end.

(** ** The rest of the control panel: cards and banner *)

Module Panel.

(** [displayValue] of [StatusCard]. *)
Definition displayValue (value : JS.Value) (unit : string)
  : JS.Completion string :=
  if String.eqb unit "$" then
    amount <- JS.call_toFixed value 0 ;;
    ret ("$" ++ amount)
  else if String.eqb unit "%" then
    ret (JS.toFixed (JS.mul (JS.ToNumber value) (JS.int 100)) 1 ++ unit)
  else
    n <- JS.call_toFixed value 0 ;;
    ret (n ++ unit).

(** The properties passed to one [StatusCard]. *)
Record Card := {
  title : string;
  value : JS.Value;
  unit : string;
  isCritical : bool
}.

(** The four cards of the grid, in the order they are rendered. *)
Definition cards (pathData : PathData) : list Card :=
  [ {| title := "Volatilitas Aset";
       value := assetVolatility pathData;
       unit := "%";
       isCritical := JS.gt (JS.ToNumber (assetVolatility pathData)) MAX_VOLATILITY |};
    {| title := "Latency Sistem";
       value := systemLatency pathData;
       unit := "ms";
       isCritical := JS.gt (JS.ToNumber (systemLatency pathData)) MAX_LATENCY |};
    {| title := "Sentimen Publik";
       value := publicSentiment pathData;
       unit := "%";
       isCritical := JS.lt (JS.ToNumber (publicSentiment pathData)) MIN_SENTIMENT |};
    {| title := "Skor Anomali";
       value := anomalyScore pathData;
       unit := "%";
       isCritical := JS.gt (JS.ToNumber (anomalyScore pathData)) MAX_ANOMALY_SCORE |} ].

(** [isCritical] and [color] of [MainStatusDisplay], over the fetched
    interventions (objects of the same shape as in the Global Control
    Panel). *)
Definition isCriticalBanner (interventions : list GCP.Fetched) : bool :=
  existsb (fun i => String.eqb (GCP.severity i) "Kritis") interventions.

Definition bannerColor (interventions : list GCP.Fetched) : string :=
  if isCriticalBanner interventions then "bg-red-800" else "bg-green-700".

End Panel.

(** ** The rest of the Global Control Panel *)

Module Dashboard.

(** [statusColor] *)
Definition statusColor (systemHealth : string) : string :=
  if String.eqb systemHealth "Optimal" then "bg-green-700/80 border-green-500"
  else if String.eqb systemHealth "Peringatan" then "bg-yellow-700/80 border-yellow-500"
  else if String.eqb systemHealth "Kritis (High Alert)" then "bg-red-700/80 border-red-500"
  else "bg-gray-700/80 border-gray-500".

(** The initial [strategicMetrics]. *)
Definition initialMetrics : GCP.StrategicMetrics :=
  {| GCP.totalAssets := 0; GCP.personaRating := JS.int 0;
     GCP.totalInterventions := 0; GCP.systemHealth := "Offline" |}.

(** The updater of the mock asset effect: [totalAssets] 3 and
    [personaRating] 92.5. *)
Definition mockAssets (prev : GCP.StrategicMetrics) : GCP.StrategicMetrics :=
  {| GCP.totalAssets := 3;
     GCP.personaRating := JS.dec 925 10;
     GCP.totalInterventions := GCP.totalInterventions prev;
     GCP.systemHealth := GCP.systemHealth prev |}.

End Dashboard.

(** ** The collection reference of [useFirebase] *)

Module Firebase.

(** [typeof __app_id !== 'undefined' ? __app_id : 'default-app-id'] *)
Definition appId (__app_id : option string) : string :=
  match __app_id with
  | Some id => id
  | None => "default-app-id"
  end.

(** The path handed to [collection] by the [interventionCollectionRef]
    memo, [None] for the [null] it returns while [db] or [userId] is not
    set; [userId] is [null] or a string, and the empty string is falsy. *)
Definition interventionCollectionRef (db : bool) (userId : option string)
    (__app_id : option string) : option string :=
  match userId with
  | None => None
  | Some uid =>
      if negb db || String.eqb uid "" then None
      else Some ("artifacts/" ++ appId __app_id ++ "/users/" ++ uid
                 ++ "/odas_interventions")
  end.

End Firebase.

(** ** Vocabulary for the properties of the sampler, the log and the health *)

(** The random change added to the field of metric [m] on tick [t]. *)
Definition drift (m : Metric) (t : Tick) : JS.number :=
  match m with
  | Volatility => JS.sub (JS.mul (random1 t) (JS.dec 1 10)) (JS.dec 5 100)
  | Liquidity => JS.sub (JS.mul (random2 t) (JS.int 50000)) (JS.int 30000)
  | Latency => JS.sub (JS.mul (random3 t) (JS.int 40)) (JS.int 20)
  | Sentiment => JS.sub (JS.mul (random4 t) (JS.dec 2 10)) (JS.dec 1 10)
  | Anomaly => JS.sub (JS.mul (random5 t) (JS.dec 3 10)) (JS.dec 1 10)
  end.

(** The one-sided clamp of metric [m]: a floor of 0 for the liquidity, a cap
    for the others. *)
Definition clamp (m : Metric) (y : JS.number) : JS.number :=
  if JS.isNaN y then JS.NaN
  else match m with
       | Volatility => if JS.lt y (JS.dec 5 10) then y else JS.dec 5 10
       | Liquidity => if JS.gt y (JS.int 0) then y else JS.int 0
       | Latency => if JS.lt y (JS.int 300) then y else JS.int 300
       | Sentiment | Anomaly => if JS.lt y (JS.int 1) then y else JS.int 1
       end.

(** The drifted value [y] of metric [m] is a number at or beyond the clamp,
    so that the sampler pins the field to the clamp. *)
Definition pinned (m : Metric) (y : JS.number) : bool :=
  negb (JS.isNaN y)
  && match m with
     | Volatility => negb (JS.lt y (JS.dec 5 10))
     | Liquidity => negb (JS.gt y (JS.int 0))
     | Latency => negb (JS.lt y (JS.int 300))
     | Sentiment | Anomaly => negb (JS.lt y (JS.int 1))
     end.

(** A document of the collection: a record and its server timestamp. *)
Definition stamp (t : Tick) (i : Intervention) : Doc :=
  {| doc_fields := i; doc_timestamp := serverTimestamp t |}.

(** The same tick with the [addDoc] outcome replaced. *)
Definition with_writes (w : option nat) (t : Tick) : Tick :=
  {| random1 := random1 t; random2 := random2 t; random3 := random3 t;
     random4 := random4 t; random5 := random5 t;
     clock := clock t; serverTimestamp := serverTimestamp t;
     writes_before_failure := w |}.

(** The records of a scan that reach the collection. *)
Definition written (l : list Intervention) (t : Tick) : list Intervention :=
  match writes_before_failure t with
  | None => l
  | Some k => firstn k l
  end.

(** A document as the evaluator produces them: the record of some metric,
    with the path and the severity of that metric. *)
Definition evaluator_doc (d : Doc) : Prop :=
  exists m, record_of m (doc_fields d) = true /\
            severity (doc_fields d) = severity_of m.

(** The severities found in a collection. *)
Definition severities (docs : list Doc) : list string :=
  map (fun d => severity (doc_fields d)) docs.

(** The health labels, from calm to alarmed. *)
Definition alert_level (systemHealth : string) : nat :=
  if String.eqb systemHealth "Kritis (High Alert)" then 2
  else if String.eqb systemHealth "Peringatan" then 1
  else 0.

(** The unit of the card that shows metric [m]. *)
Definition unit_of (m : Metric) : string :=
  match m with
  | Liquidity => "$"
  | Latency => "ms"
  | Volatility | Sentiment | Anomaly => "%"
  end.

(** [App] before the database is ready: the simulation is off. *)
Definition bootingApp : App :=
  {| pathData := initialPathData "10:00:00";
     odasStatus := "Initializing...";
     isSimulating := false;
     interventionCollectionRef := false;
     collection := [] |}.

(** {volatility: 0.5, liquidity: 0, latency: 300, sentiment: 1.0,
    anomaly: 1.0}: every field sits on its clamp. *)
Definition saturated_snapshot : PathData :=
  snapshot (JS.dec 5 10) (JS.int 0) (JS.int 300) (JS.int 1) (JS.int 1).

(** A tick on which every [Math.random()] call returns 0.9. *)
Definition high_draws : Tick := draws (JS.dec 9 10).

(** {volatility: 0.05, liquidity: 90000, latency: 50, sentiment: 0.80,
    anomaly: 0.30}: only the liquidity is beyond its bound. *)
Definition illiquid_snapshot : PathData :=
  snapshot (JS.dec 5 100) (JS.int 90000) (JS.int 50) (JS.dec 80 100)
           (JS.dec 30 100).

(** ** Facts about numbers and strings *)

Lemma lt_NaN_l (c : JS.number) : JS.lt JS.NaN c = false.
Proof. reflexivity. Qed.

Lemma gt_NaN_l (c : JS.number) : JS.gt JS.NaN c = false.
Proof. destruct c; reflexivity. Qed.

Lemma SFcompare_Eq_sym (x y : spec_float) :
  SFcompare x y = Some Eq -> SFcompare y x = Some Eq.
Proof.
  destruct x as [sx|sx| |sx mx ex], y as [sy|sy| |sy my ey]; cbn;
    try destruct sx; try destruct sy; try discriminate; try reflexivity;
    destruct (Z.compare_spec ex ey) as [->| |]; try discriminate;
    rewrite Z.compare_refl;
    destruct (Pos.compare_cont Eq mx my) eqn:E; cbn; try discriminate;
    apply Pos.compare_eq in E; subst my;
    fold (Pos.compare mx mx); now rewrite Pos.compare_refl.
Qed.

(** A value equal to a bound is neither above nor below it. *)
Lemma eq_not_beyond (k : BoundKind) (v c : JS.number) :
  JS.eq v c = true -> beyond k v c = false.
Proof.
  unfold JS.eq, SFeqb. intros H.
  destruct (SFcompare v c) as [[]|] eqn:E; try discriminate.
  destruct k; unfold beyond, JS.gt, JS.lt, SFltb.
  - now rewrite (SFcompare_Eq_sym _ _ E).
  - now rewrite E.
Qed.

Lemma prefix_append (h t : string) : String.prefix h (h ++ t) = true.
Proof.
  induction h as [|a h IH]; cbn.
  - now destruct t.
  - destruct (ascii_dec a a) as [_|n]; [exact IH | now elim n].
Qed.

Lemma prefix_inv (h s : string) :
  String.prefix h s = true -> exists t, s = h ++ t.
Proof.
  revert s. induction h as [|a h IH]; intros s H.
  - now exists s.
  - destruct s as [|b s]; cbn in H; [discriminate|].
    destruct (ascii_dec a b) as [->|]; [|discriminate].
    destruct (IH _ H) as [t ->]. now exists t.
Qed.

(** [includes] decides occurrence as a substring. *)
Lemma includes_spec (sub s : string) :
  includes sub s = true <-> exists pre post, s = pre ++ sub ++ post.
Proof.
  split.
  - induction s as [|a s IH]; cbn [includes]; intros H.
    + apply orb_true_iff in H as [H|H]; [|discriminate].
      destruct (prefix_inv _ _ H) as [t ->]. now exists "", t.
    + apply orb_true_iff in H as [H|H].
      * destruct (prefix_inv _ _ H) as [t ->]. now exists "", t.
      * destruct (IH H) as (pre & post & ->).
        now exists (String a pre), post.
  - intros (pre & post & ->).
    induction pre as [|a pre IH]; cbn [append].
    + destruct (sub ++ post) eqn:E; cbn [includes];
        rewrite <- E, prefix_append; reflexivity.
    + cbn [includes]. rewrite IH. apply orb_true_r.
Qed.

Lemma le_refl (c : JS.number) : JS.isNaN c = false -> JS.le c c = true.
Proof.
  destruct c as [s|s| |s m e]; cbn; try discriminate; try reflexivity.
  - now destruct s.
  - intros _. unfold JS.le, SFleb, SFcompare.
    rewrite Z.compare_refl. fold (Pos.compare m m). rewrite Pos.compare_refl.
    now destruct s.
Qed.

Lemma lt_le (x y : JS.number) : JS.lt x y = true -> JS.le x y = true.
Proof.
  unfold JS.lt, JS.le, SFltb, SFleb. now destruct (SFcompare x y) as [[]|].
Qed.

Lemma min_step_Infinity (c : JS.number) :
  JS.min_step (S754_infinity false) c = c.
Proof. destruct c as [[]|[]| |[] m e]; reflexivity. Qed.

Lemma max_step_Infinity (c : JS.number) :
  JS.max_step (S754_infinity true) c = c.
Proof. destruct c as [[]|[]| |[] m e]; reflexivity. Qed.

Lemma min_step_cases (c x : JS.number) :
  JS.min_step c x = JS.NaN \/
  (JS.min_step c x = x /\ JS.le x c = true) \/ JS.min_step c x = c.
Proof.
  destruct c as [[]|[]| |[] mc ec], x as [[]|[]| |[] mx ex];
    try (left; reflexivity);
    try (right; left; split; reflexivity);
    try (right; right; reflexivity);
    unfold JS.min_step;
    match goal with
    | |- context [JS.lt ?a ?b] =>
        destruct (JS.lt a b) eqn:E;
        [right; left; split; [reflexivity|now apply lt_le]
        |right; right; reflexivity]
    end.
Qed.

Lemma max_step_cases (c x : JS.number) :
  JS.max_step c x = JS.NaN \/
  (JS.max_step c x = x /\ JS.le c x = true) \/ JS.max_step c x = c.
Proof.
  destruct c as [[]|[]| |[] mc ec], x as [[]|[]| |[] mx ex];
    try (left; reflexivity);
    try (right; left; split; reflexivity);
    try (right; right; reflexivity);
    unfold JS.max_step;
    match goal with
    | |- context [JS.gt ?a ?b] =>
        destruct (JS.gt a b) eqn:E;
        [right; left; split; [reflexivity|now apply lt_le]
        |right; right; reflexivity]
    end.
Qed.

(** [Math.min(c, x)] is NaN or at most [c]; [Math.max(c, x)] is NaN or at
    least [c]. *)
Lemma Math_min_clamp (c x : JS.number) :
  JS.isNaN c = false ->
  at_most c (JS.Number (JS.Math_min [c; x])).
Proof.
  intros Hc. eexists. split; [reflexivity|].
  unfold JS.Math_min. cbn [fold_left]. rewrite min_step_Infinity.
  destruct (min_step_cases c x) as [->|[[-> H]| ->]]; auto using le_refl.
Qed.

Lemma Math_max_clamp (c x : JS.number) :
  JS.isNaN c = false ->
  at_least c (JS.Number (JS.Math_max [c; x])).
Proof.
  intros Hc. eexists. split; [reflexivity|].
  unfold JS.Math_max. cbn [fold_left]. rewrite max_step_Infinity.
  destruct (max_step_cases c x) as [->|[[-> H]| ->]]; auto using le_refl.
Qed.

(** ** The evaluator returns the records of the violated metrics *)

Lemma orchestrateControl_raised (s : PathData) :
  orchestrateControl s = inr (flat_map (raised s) evaluation_order).
Proof.
  destruct s as [vol liq lat sen ano ls].
  unfold orchestrateControl, raised, violates, evaluation_order, flat_map, push.
  cbn [field bound_kind threshold beyond assetVolatility marketLiquidity
       systemLatency publicSentiment anomalyScore expected].
  fold MAX_VOLATILITY MIN_LIQUIDITY MAX_LATENCY MIN_SENTIMENT MAX_ANOMALY_SCORE.
  destruct vol as [|vol], liq as [|liq], lat as [|lat], sen as [|sen],
           ano as [|ano];
    cbn [JS.ToNumber JS.call_toFixed];
    rewrite ?lt_NaN_l, ?gt_NaN_l;
    repeat match goal with
           | |- context [JS.gt ?x ?c] => destruct (JS.gt x c)
           | |- context [JS.lt ?x ?c] => destruct (JS.lt x c)
           end;
    reflexivity.
Qed.

(** The record pushed for [m] is recognised as a record of [m] and of no
    other metric. *)
Lemma record_of_expected (s : PathData) (m m' : Metric) :
  record_of m' (expected s m) = true <-> m' = m.
Proof.
  split.
  - unfold record_of. destruct m, m'; cbn [expected path description path_of headline];
      try reflexivity; intros H; exfalso; revert H;
      repeat match goal with
             | |- context [JS.toFixed ?x ?f] => generalize (JS.toFixed x f); intro
             end;
      cbn; discriminate.
  - intros ->. unfold record_of.
    destruct m; cbn [expected path description path_of headline];
      rewrite prefix_append; reflexivity.
Qed.

Lemma severity_expected (s : PathData) (m : Metric) :
  severity (expected s m) = severity_of m.
Proof. now destruct m. Qed.

Lemma path_expected (s : PathData) (m : Metric) :
  path (expected s m) = path_of m.
Proof. now destruct m. Qed.

Lemma In_raised (s : PathData) (r : Intervention) (ms : list Metric) :
  In r (flat_map (raised s) ms) <->
  exists m, In m ms /\ violates s m = true /\ r = expected s m.
Proof.
  rewrite in_flat_map. unfold raised. split.
  - intros (m & Hm & Hr). exists m.
    destruct (violates s m); [|contradiction].
    destruct Hr as [<-|[]]. auto.
  - intros (m & Hm & Hv & ->). exists m. rewrite Hv. cbn. auto.
Qed.

Lemma length_raised (s : PathData) (ms : list Metric) :
  List.length (flat_map (raised s) ms) = List.length (filter (violates s) ms).
Proof.
  induction ms as [|m ms IH]; [reflexivity|].
  cbn [flat_map filter]. rewrite length_app, IH. unfold raised.
  now destruct (violates s m).
Qed.

Lemma Forall2_raised (s : PathData) (ms : list Metric) :
  Forall2 (fun m r => r = expected s m)
          (filter (violates s) ms) (flat_map (raised s) ms).
Proof.
  induction ms as [|m ms IH]; [constructor|].
  cbn [flat_map filter]. unfold raised at 1.
  destruct (violates s m); cbn; auto.
Qed.

Lemma all_metrics (m : Metric) : In m evaluation_order.
Proof. destruct m; cbn; auto 6. Qed.

(** ** One scan and many *)

Lemma newPathData_clamped (p : PathData) (t : Tick) :
  clamped (newPathData p t).
Proof.
  unfold clamped, newPathData. cbn [assetVolatility marketLiquidity
    systemLatency publicSentiment anomalyScore].
  repeat split; (apply Math_min_clamp || apply Math_max_clamp); reflexivity.
Qed.

Lemma runOdasScan_running (t : Tick) (a : App) :
  running (runOdasScan t a) = running a.
Proof.
  unfold runOdasScan, running.
  destruct (isSimulating a) eqn:Hs, (interventionCollectionRef a) eqn:Hr;
    cbn [negb orb andb]; rewrite ?Hs, ?Hr; try reflexivity.
  rewrite orchestrateControl_raised.
  destruct (0 <? _)%nat; cbn; now rewrite Hs, Hr.
Qed.

Lemma runOdasScan_pathData (t : Tick) (a : App) :
  running a = true ->
  pathData (runOdasScan t a) = newPathData (pathData a) t.
Proof.
  unfold runOdasScan, running. intros H.
  apply andb_true_iff in H as [-> ->]. cbn [negb orb].
  rewrite orchestrateControl_raised.
  destruct (0 <? _)%nat; reflexivity.
Qed.

Lemma runScans_running (ticks : list Tick) (a : App) :
  running (runScans ticks a) = running a.
Proof.
  revert a. induction ticks as [|t ticks IH]; intros a; [reflexivity|].
  cbn [runScans fold_left]. fold (runScans ticks (runOdasScan t a)).
  now rewrite IH, runOdasScan_running.
Qed.

Lemma runScans_last (ticks : list Tick) (t : Tick) (a : App) :
  runScans (ticks ++ [t]) a = runOdasScan t (runScans ticks a).
Proof. unfold runScans. rewrite fold_left_app. reflexivity. Qed.

(** ** The evaluator *)

(** C1: for every snapshot the evaluator returns as many records as there
    are fields that violate their bound, one record per violation; on
    {volatility: 0.20, liquidity: 500000, latency: 50, sentiment: 0.80,
    anomaly: 0.30} it returns exactly one record, of path Finansial and
    severity Kritis, whose description contains "20.0%". *)
Theorem C1_one_record_per_violation :
  (forall s : PathData, exists l,
      orchestrateControl s = inr l /\
      List.length l = List.length (filter (violates s) evaluation_order))
  /\ (exists r,
        orchestrateControl volatile_snapshot = inr [r] /\
        path r = "Finansial" /\ severity r = "Kritis" /\
        includes "20.0%" (description r) = true)
  /\ (exists l,
        orchestrateControl alarming_snapshot = inr l /\ List.length l = 5%nat).
Proof.
  split; [|split].
  - intros s. eexists. split; [apply orchestrateControl_raised|].
    apply length_raised.
  - eexists. split; [vm_compute; reflexivity|].
    repeat split; vm_compute; reflexivity.
  - eexists. split; [vm_compute; reflexivity|reflexivity].
Qed.

(** C3: a field exactly equal to its bound produces no record of its
    metric; a record of a metric is produced exactly when the field is
    strictly above an upper bound or strictly below a lower bound; with
    systemLatency equal to 150 there is no Infrastruktur record. *)
Theorem C3_bounds_are_strict :
  (forall (s : PathData) (m : Metric) (v : JS.number),
      field m s = JS.Number v -> JS.eq v (threshold m) = true ->
      exists l, orchestrateControl s = inr l /\
                Forall (fun r => record_of m r = false) l)
  /\ (forall s : PathData, exists l,
        orchestrateControl s = inr l /\
        forall m, Exists (fun r => record_of m r = true) l <->
                  exists v, field m s = JS.Number v /\
                            beyond (bound_kind m) v (threshold m) = true)
  /\ (forall s : PathData,
        systemLatency s = JS.Number (JS.int 150) ->
        exists l, orchestrateControl s = inr l /\
                  Forall (fun r => path r <> "Infrastruktur") l).
Proof.
  assert (Hnone : forall s m, violates s m = false ->
            Forall (fun r => record_of m r = false)
                   (flat_map (raised s) evaluation_order)).
  { intros s m Hv. apply Forall_forall. intros r Hr.
    apply In_raised in Hr as (m' & _ & Hv' & ->).
    destruct (record_of m (expected s m')) eqn:E; [|reflexivity].
    apply record_of_expected in E. congruence. }
  split; [|split].
  - intros s m v Hf He. eexists. split; [apply orchestrateControl_raised|].
    apply Hnone. unfold violates. rewrite Hf. now apply eq_not_beyond.
  - intros s. eexists. split; [apply orchestrateControl_raised|].
    intros m. rewrite Exists_exists. split.
    + intros (r & Hr & Hm). apply In_raised in Hr as (m' & _ & Hv & ->).
      apply record_of_expected in Hm. subst m'.
      unfold violates in Hv. destruct (field m s) as [|v]; [discriminate|].
      now exists v.
    + intros (v & Hf & Hb). exists (expected s m). split.
      * apply In_raised. exists m. repeat split; [apply all_metrics|].
        unfold violates. now rewrite Hf.
      * now apply record_of_expected.
  - intros s Hl. eexists. split; [apply orchestrateControl_raised|].
    assert (Hv : violates s Latency = false).
    { unfold violates. cbn [field]. rewrite Hl. reflexivity. }
    apply Forall_forall. intros r Hr.
    apply In_raised in Hr as (m & _ & Hm & ->).
    rewrite path_expected. destruct m; cbn; congruence.
Qed.

(** C3 at a concrete snapshot: latency 150 raises no Latency record. *)
Lemma C3_bounds_are_strict_witness :
  exists l, orchestrateControl latency_at_bound = inr l /\
            Forall (fun r => record_of Latency r = false) l.
Proof.
  apply (proj1 C3_bounds_are_strict latency_at_bound Latency (JS.int 150));
    reflexivity.
Defined.

(** C4: the records come in the fixed evaluation order volatility,
    liquidity, latency, sentiment, anomaly: the i-th record is the record of
    the i-th violated metric of that order; a snapshot violating all five
    thresholds yields the five records in exactly that order. *)
Theorem C4_fixed_evaluation_order :
  (forall s : PathData, exists l,
      orchestrateControl s = inr l /\
      Forall2 (fun m r => record_of m r = true)
              (filter (violates s) evaluation_order) l)
  /\ (forall s : PathData,
        (forall m, violates s m = true) ->
        exists l, orchestrateControl s = inr l /\
                  Forall2 (fun m r => record_of m r = true)
                          [Volatility; Liquidity; Latency; Sentiment; Anomaly] l)
  /\ orchestrateControl alarming_snapshot = inr
       [ {| path := "Finansial";
            description := "Volatilitas aset Kritis (30.0%). Memerlukan Chronos Executor (CE) Lock.";
            severity := "Kritis" |};
         {| path := "Finansial";
            description := "Likuiditas rendah: $50000. Memerlukan injeksi dana/stabilisasi.";
            severity := "Peringatan" |};
         {| path := "Infrastruktur";
            description := "Latency sistem Kritis (200ms). Memerlukan realokasi sumber daya I/O.";
            severity := "Kritis" |};
         {| path := "Persona";
            description := "Sentimen Publik Rendah (20%). Memerlukan Narasi Frame Shift Otomatis.";
            severity := "Peringatan" |};
         {| path := "Sensor";
            description := "Anomali Data Masif Terdeteksi (90%). Memerlukan Recursive Resonance Alert (RRA).";
            severity := "Kritis" |} ].
Proof.
  assert (H : forall s, exists l,
      orchestrateControl s = inr l /\
      Forall2 (fun m r => record_of m r = true)
              (filter (violates s) evaluation_order) l).
  { intros s. eexists. split; [apply orchestrateControl_raised|].
    eapply Forall2_impl; [|apply Forall2_raised].
    intros m r ->. now apply record_of_expected. }
  split; [exact H|split].
  - intros s Hall. destruct (H s) as (l & Hl & HF). exists l. split; [exact Hl|].
    unfold evaluation_order in HF. cbn [filter] in HF.
    now rewrite !Hall in HF.
  - vm_compute. reflexivity.
Qed.

(** C4 at a concrete snapshot that violates all five thresholds. *)
Lemma C4_fixed_evaluation_order_witness :
  exists l, orchestrateControl alarming_snapshot = inr l /\
            Forall2 (fun m r => record_of m r = true)
                    [Volatility; Liquidity; Latency; Sentiment; Anomaly] l.
Proof.
  apply (proj1 (proj2 C4_fixed_evaluation_order) alarming_snapshot).
  intros m. destruct m; reflexivity.
Defined.

(** C5: the severity of a record is fixed by its triggering metric, whatever
    the snapshot: every returned record is the record of a violated metric,
    and a record of volatility, latency or anomaly is Kritis while a record
    of liquidity or sentiment is Peringatan. *)
Theorem C5_severity_fixed_per_metric :
  forall s : PathData, exists l,
    orchestrateControl s = inr l /\
    Forall (fun r => exists m, violates s m = true /\ record_of m r = true) l /\
    forall r m, In r l -> record_of m r = true ->
                severity r = match m with
                             | Volatility | Latency | Anomaly => "Kritis"
                             | Liquidity | Sentiment => "Peringatan"
                             end.
Proof.
  intros s. eexists. split; [apply orchestrateControl_raised|]. split.
  - apply Forall_forall. intros r Hr.
    apply In_raised in Hr as (m & _ & Hv & ->).
    exists m. split; [exact Hv|]. now apply record_of_expected.
  - intros r m Hr Hm. apply In_raised in Hr as (m' & _ & _ & ->).
    apply record_of_expected in Hm. subst m'.
    rewrite severity_expected. now destruct m.
Qed.

(** C5 at a concrete snapshot: its Persona record is Peringatan. *)
Lemma C5_severity_fixed_per_metric_witness :
  exists l, orchestrateControl gloomy_snapshot = inr l /\
            forall r, In r l -> severity r = "Peringatan".
Proof.
  destruct (C5_severity_fixed_per_metric gloomy_snapshot) as (l & Hl & _ & H).
  exists l. split; [exact Hl|].
  assert (E : orchestrateControl gloomy_snapshot = inr [gloomy_record])
    by (vm_compute; reflexivity).
  rewrite E in Hl. injection Hl as <-.
  intros r Hr. apply (H r Sentiment Hr).
  destruct Hr as [<-|[]]. vm_compute. reflexivity.
Defined.

(** C6 fails as stated: with sentiment 0.333 the Persona description reads
    "(33%)", which does not embed the display format "33.3". *)
Lemma C6_display_precision_counterexample :
  ~ embeds_value display_decimals gloomy_snapshot.
Proof.
  intros (l & Hl & H).
  assert (E : orchestrateControl gloomy_snapshot = inr [gloomy_record])
    by (vm_compute; reflexivity).
  rewrite E in Hl. injection Hl as <-.
  assert (R : record_of Sentiment gloomy_record = true)
    by (vm_compute; reflexivity).
  specialize (H gloomy_record Sentiment (or_introl eq_refl) R).
  evaluates_to_false H.
Qed.

(** C6, amended: the description of every record is its headline, then the
    triggering value printed by [toFixed], then the closing text; the
    volatility percentage has one decimal, the liquidity amount, the latency
    and the sentiment and anomaly percentages have none. *)
Theorem C6_description_precision :
  forall s : PathData, exists l,
    orchestrateControl s = inr l /\
    (forall r m, In r l -> record_of m r = true ->
       description r
       = headline m ++ JS.toFixed (printed m s) (description_decimals m)
         ++ closing m) /\
    embeds_value description_decimals s.
Proof.
  assert (Hd : forall s m, description (expected s m)
     = headline m ++ JS.toFixed (printed m s) (description_decimals m)
       ++ closing m) by (intros s m; destruct m; reflexivity).
  assert (H : forall s r m, In r (flat_map (raised s) evaluation_order) ->
     record_of m r = true ->
     description r
     = headline m ++ JS.toFixed (printed m s) (description_decimals m)
       ++ closing m).
  { intros s r m Hr Hm. apply In_raised in Hr as (m' & _ & _ & ->).
    apply record_of_expected in Hm. subst m'. apply Hd. }
  intros s. eexists. split; [apply orchestrateControl_raised|]. split.
  - apply H.
  - eexists. split; [apply orchestrateControl_raised|].
    intros r m Hr Hm. rewrite (H s r m Hr Hm).
    apply includes_spec. now exists (headline m), (closing m).
Qed.

(** C6 at a concrete snapshot: the Persona description for sentiment 0.333. *)
Lemma C6_description_precision_witness :
  exists l, orchestrateControl gloomy_snapshot = inr l /\
    forall r, In r l ->
      description r
      = "Sentimen Publik Rendah (" ++ JS.toFixed (printed Sentiment gloomy_snapshot) 0
        ++ "%). Memerlukan Narasi Frame Shift Otomatis.".
Proof.
  destruct (C6_description_precision gloomy_snapshot) as (l & Hl & H & _).
  exists l. split; [exact Hl|].
  assert (E : orchestrateControl gloomy_snapshot = inr [gloomy_record])
    by (vm_compute; reflexivity).
  rewrite E in Hl. injection Hl as <-.
  intros r [<-|[]]. apply (H gloomy_record Sentiment).
  - left. reflexivity.
  - vm_compute. reflexivity.
Defined.

(** C7 fails as stated: a snapshot without systemLatency is evaluated to the
    empty sequence, no error is signalled. *)
Lemma C7_malformed_snapshot_counterexample :
  ~ fails_exactly_when_malformed snapshot_without_latency.
Proof.
  intros [_ H].
  destruct H as [e He].
  - intros Hw. now apply (Hw Latency).
  - vm_compute in He. discriminate.
Qed.

(** C7, amended: the evaluator is total, on well-formed snapshots and on
    snapshots with missing fields alike: it always returns a sequence and
    never throws, and a missing field raises no record of its metric. *)
Theorem C7_evaluator_total :
  forall s : PathData, exists l,
    orchestrateControl s = inr l /\
    forall m, field m s = JS.Undefined ->
              Forall (fun r => record_of m r = false) l.
Proof.
  intros s. eexists. split; [apply orchestrateControl_raised|].
  intros m Hm. apply Forall_forall. intros r Hr.
  apply In_raised in Hr as (m' & _ & Hv & ->).
  destruct (record_of m (expected s m')) eqn:E; [|reflexivity].
  apply record_of_expected in E. subst m'.
  unfold violates in Hv. rewrite Hm in Hv. discriminate.
Qed.

(** C7 at the snapshot without systemLatency. *)
Lemma C7_evaluator_total_witness :
  exists l, orchestrateControl snapshot_without_latency = inr l /\
            Forall (fun r => record_of Latency r = false) l.
Proof.
  destruct (C7_evaluator_total snapshot_without_latency) as (l & Hl & H).
  exists l. split; [exact Hl|]. apply H. reflexivity.
Defined.

(** ** The sampler *)

(** From the initial metrics, nine scans whose draws are all 0 leave the
    four fields that are clamped from above below zero. *)
Lemma sampler_goes_negative :
  let p := pathData (runScans (repeat low_draws 9) initialApp) in
  JS.lt (JS.ToNumber (assetVolatility p)) (JS.int 0) = true /\
  JS.lt (JS.ToNumber (systemLatency p)) (JS.int 0) = true /\
  JS.lt (JS.ToNumber (publicSentiment p)) (JS.int 0) = true /\
  JS.lt (JS.ToNumber (anomalyScore p)) (JS.int 0) = true.
Proof. vm_compute. repeat split; reflexivity. Qed.

(** C2 fails as stated: from the initial metrics, two scans whose draws of
    [Math.random()] are all 0 leave assetVolatility at about -0.05, below
    its documented range. *)
Lemma C2_documented_ranges_counterexample :
  ~ documented_ranges (pathData (runScans [low_draws; low_draws] initialApp)).
Proof.
  intros [(x & Hx & H0 & _) _].
  assert (E : assetVolatility (pathData (runScans [low_draws; low_draws] initialApp))
              = JS.Number (S754_finite true 7205759403792794 (-57)))
    by (vm_compute; reflexivity).
  rewrite E in Hx. injection Hx as <-.
  evaluates_to_false H0.
Qed.

(** C2, amended: after any positive number of scans from any state in which
    the scan runs, every field is a number, and unless it is NaN,
    assetVolatility is at most 0.5, marketLiquidity at least 0,
    systemLatency at most 300, publicSentiment at most 1 and anomalyScore at
    most 1. *)
Theorem C2_sampler_clamps :
  forall (a : App) (ticks : list Tick),
    running a = true -> ticks <> [] ->
    clamped (pathData (runScans ticks a)).
Proof.
  intros a ticks Ha Hne.
  destruct (exists_last Hne) as (ts & t & ->).
  rewrite runScans_last, runOdasScan_pathData.
  - apply newPathData_clamped.
  - now rewrite runScans_running.
Qed.

(** C2 at the initial state, after two scans with all draws 0. *)
Lemma C2_sampler_clamps_witness :
  clamped (pathData (runScans [low_draws; low_draws] initialApp)).
Proof.
  apply C2_sampler_clamps; [reflexivity | discriminate].
Defined.

(** ** The health aggregate and the scan status *)

Lemma criticalCount_count_occ (fetched : list GCP.Fetched) :
  GCP.criticalCount fetched
  = count_occ string_dec (map GCP.severity fetched) "Kritis".
Proof.
  unfold GCP.criticalCount.
  induction fetched as [|i fetched IH]; [reflexivity|].
  cbn [filter map count_occ].
  destruct (String.eqb_spec (GCP.severity i) "Kritis") as [E|E];
    destruct (string_dec (GCP.severity i) "Kritis") as [E'|E'];
    try contradiction; cbn [List.length]; now rewrite IH.
Qed.

(** C8: the health label is a function of the number of Kritis records in
    the fetched log: more than 5 gives "Kritis (High Alert)", 1 to 5 gives
    "Peringatan", none gives "Optimal"; so 6 gives "Kritis (High Alert)",
    3 gives "Peringatan" and 0 gives "Optimal". *)
Theorem C8_health_from_critical_count :
  (forall (fetched : list GCP.Fetched) (prev : GCP.StrategicMetrics),
      let n := count_occ string_dec (map GCP.severity fetched) "Kritis" in
      let health := GCP.systemHealth (GCP.onSnapshot fetched prev) in
      (5 < n -> health = "Kritis (High Alert)") /\
      (1 <= n <= 5 -> health = "Peringatan") /\
      (n = 0 -> health = "Optimal"))%nat
  /\ (forall prev warnings,
        GCP.systemHealth (GCP.onSnapshot (log_of 6 warnings) prev)
        = "Kritis (High Alert)")
  /\ (forall prev warnings,
        GCP.systemHealth (GCP.onSnapshot (log_of 3 warnings) prev)
        = "Peringatan")
  /\ (forall prev warnings,
        GCP.systemHealth (GCP.onSnapshot (log_of 0 warnings) prev)
        = "Optimal").
Proof.
  assert (G : (forall fetched prev,
      let n := count_occ string_dec (map GCP.severity fetched) "Kritis" in
      let health := GCP.systemHealth (GCP.onSnapshot fetched prev) in
      (5 < n -> health = "Kritis (High Alert)") /\
      (1 <= n <= 5 -> health = "Peringatan") /\
      (n = 0 -> health = "Optimal"))%nat).
  { intros fetched prev n health. subst n health.
    unfold GCP.onSnapshot. cbn [GCP.systemHealth].
    rewrite criticalCount_count_occ.
    destruct (Nat.ltb_spec 5 (count_occ string_dec (map GCP.severity fetched) "Kritis"));
      destruct (Nat.ltb_spec 0 (count_occ string_dec (map GCP.severity fetched) "Kritis"));
      repeat split; intros; try reflexivity; lia. }
  assert (C : forall k w,
      count_occ string_dec (map GCP.severity (log_of k w)) "Kritis" = k).
  { intros k w. unfold log_of. rewrite map_app, count_occ_app, !map_repeat.
    cbn [entry GCP.severity].
    rewrite count_occ_repeat_eq by reflexivity.
    rewrite count_occ_repeat_neq by discriminate. lia. }
  split; [exact G|]. split; [|split]; intros prev w.
  - apply (proj1 (G (log_of 6 w) prev)). rewrite C. lia.
  - apply (proj1 (proj2 (G (log_of 3 w) prev))). rewrite C. lia.
  - apply (proj2 (proj2 (G (log_of 0 w) prev))). now rewrite C.
Qed.

(** C8 at a log of four Kritis and two Peringatan entries. *)
Lemma C8_health_from_critical_count_witness :
  GCP.systemHealth (GCP.onSnapshot (log_of 4 2) offline) = "Peringatan".
Proof.
  apply (proj1 (proj2 (proj1 C8_health_from_critical_count (log_of 4 2) offline))).
  cbn. lia.
Defined.

(** C9: a scan that passes its guard sets the status from the records the
    evaluator returned on that scan's new metrics alone: with no record the
    status is "ODAS Operasional Normal", with N records, Kritis or
    Peringatan, it is "Intervensi N Kritis". *)
Theorem C9_status_from_current_scan :
  (forall (t : Tick) (a : App),
      running a = true ->
      exists l, orchestrateControl (newPathData (pathData a) t) = inr l /\
        (l = [] -> odasStatus (runOdasScan t a) = "ODAS Operasional Normal") /\
        (l <> [] ->
         odasStatus (runOdasScan t a)
         = "Intervensi " ++ JS.string_of_length (List.length l) ++ " Kritis"))
  /\ odasStatus (runOdasScan middle_draws (readyApp alarming_snapshot))
     = "Intervensi 5 Kritis"
  /\ odasStatus (runOdasScan low_draws initialApp)
     = "ODAS Operasional Normal".
Proof.
  split; [|split; vm_compute; reflexivity].
  intros t a Ha. eexists. split; [apply orchestrateControl_raised|].
  unfold runOdasScan. unfold running in Ha.
  apply andb_true_iff in Ha as [-> ->]. cbn [negb orb].
  rewrite orchestrateControl_raised.
  destruct (flat_map _ _) as [|r l]; cbn [List.length Nat.ltb Nat.leb].
  - split; [reflexivity|]. intros H. now elim H.
  - split; [discriminate|]. reflexivity.
Qed.

(** C9 at the first scan of the initial state, all draws 0. *)
Lemma C9_status_from_current_scan_witness :
  exists l, orchestrateControl (newPathData (pathData initialApp) low_draws) = inr l /\
    (l = [] -> odasStatus (runOdasScan low_draws initialApp)
               = "ODAS Operasional Normal").
Proof.
  destruct (proj1 C9_status_from_current_scan low_draws initialApp eq_refl)
    as (l & Hl & H & _).
  exists l. split; [exact Hl | exact H].
Defined.

(** C10: Peringatan records never influence the health label: a fetched log
    without any Kritis record is "Optimal", however many other records it
    holds. *)
Theorem C10_warnings_do_not_count :
  forall (fetched : list GCP.Fetched) (prev : GCP.StrategicMetrics),
    Forall (fun i => GCP.severity i <> "Kritis") fetched ->
    GCP.systemHealth (GCP.onSnapshot fetched prev) = "Optimal".
Proof.
  intros fetched prev H.
  assert (E : GCP.criticalCount fetched = 0%nat).
  { unfold GCP.criticalCount.
    induction H as [|i fetched Hi HF IH]; [reflexivity|].
    cbn [filter]. destruct (String.eqb_spec (GCP.severity i) "Kritis");
      [contradiction | exact IH]. }
  unfold GCP.onSnapshot. cbn [GCP.systemHealth]. now rewrite E.
Qed.

(** C10 at a log of seven Peringatan entries. *)
Lemma C10_warnings_do_not_count_witness :
  GCP.systemHealth (GCP.onSnapshot (log_of 0 7) offline) = "Optimal".
Proof.
  apply C10_warnings_do_not_count.
  repeat constructor; discriminate.
Defined.

(** ** The scan: guard, log and write failures *)

Lemma runOdasScan_blocked (t : Tick) (a : App) :
  running a = false -> runOdasScan t a = a.
Proof.
  unfold running, runOdasScan. intros H.
  destruct (isSimulating a), (interventionCollectionRef a);
    try discriminate; reflexivity.
Qed.

Lemma length_raised_le (s : PathData) :
  (List.length (flat_map (raised s) evaluation_order) <= 5)%nat.
Proof.
  rewrite length_raised.
  apply (Nat.le_trans _ _ _ (filter_length_le _ _)). reflexivity.
Qed.

Lemma written_nil (t : Tick) : written [] t = [].
Proof. unfold written. destruct (writes_before_failure t) as [[|k]|]; reflexivity. Qed.

Lemma written_incl (l : list Intervention) (t : Tick) (r : Intervention) :
  In r (written l t) -> In r l.
Proof.
  unfold written. destruct (writes_before_failure t) as [k|]; [|trivial].
  intros H. rewrite <- (firstn_skipn k l). apply in_or_app. now left.
Qed.

Lemma length_written (l : list Intervention) (t : Tick) :
  (List.length (written l t) <= List.length l)%nat.
Proof.
  unfold written. destruct (writes_before_failure t) as [k|]; [|reflexivity].
  rewrite length_firstn. lia.
Qed.

Lemma runOdasScan_collection (t : Tick) (a : App) :
  running a = true ->
  collection (runOdasScan t a)
  = (collection a
     ++ map (stamp t)
            (written (flat_map (raised (newPathData (pathData a) t))
                               evaluation_order) t))%list.
Proof.
  unfold runOdasScan, running. intros H.
  apply andb_true_iff in H as [-> ->]. cbn [negb orb].
  rewrite orchestrateControl_raised.
  destruct (flat_map _ _) as [|r l] eqn:E; cbn [List.length Nat.ltb Nat.leb].
  - rewrite written_nil. cbn. now rewrite app_nil_r.
  - reflexivity.
Qed.

Lemma runOdasScan_odasStatus (t : Tick) (a : App) :
  running a = true ->
  odasStatus (runOdasScan t a)
  = let l := flat_map (raised (newPathData (pathData a) t)) evaluation_order in
    match l with
    | [] => "ODAS Operasional Normal"
    | _ :: _ =>
        "Intervensi " ++ JS.string_of_length (List.length l) ++ " Kritis"
    end.
Proof.
  unfold runOdasScan, running. intros H.
  apply andb_true_iff in H as [-> ->]. cbn [negb orb].
  rewrite orchestrateControl_raised. cbv zeta.
  destruct (flat_map _ _) as [|r l]; reflexivity.
Qed.

(** X1: while the simulation is off or the collection reference is not
    set, a scan does nothing: whatever the ticks, the state of the panel
    (metrics, status, collection) is left as it was. *)
Theorem scans_blocked_until_ready :
  forall (ticks : list Tick) (a : App),
    running a = false -> runScans ticks a = a.
Proof.
  induction ticks as [|t ticks IH]; intros a H; [reflexivity|].
  cbn [runScans fold_left]. fold (runScans ticks (runOdasScan t a)).
  rewrite (runOdasScan_blocked t a H). now apply IH.
Qed.

(** [scans_blocked_until_ready] at a concrete input. *)
Lemma scans_blocked_until_ready_witness :
  runScans [low_draws; middle_draws] bootingApp = bootingApp.
Proof. apply scans_blocked_until_ready. reflexivity. Defined.

(** X2: the scans only ever append to the collection: after any ticks, the
    collection is the old one followed by new documents, at most five per
    tick. *)
Theorem log_is_append_only :
  forall (ticks : list Tick) (a : App),
    exists added,
      collection (runScans ticks a) = (collection a ++ added)%list /\
      (List.length added <= 5 * List.length ticks)%nat.
Proof.
  induction ticks as [|t ticks IH]; intros a.
  - exists []. split; [now rewrite app_nil_r | cbn; lia].
  - cbn [runScans fold_left]. fold (runScans ticks (runOdasScan t a)).
    destruct (IH (runOdasScan t a)) as (added & -> & Hlen).
    destruct (running a) eqn:Hr.
    + rewrite (runOdasScan_collection t a Hr). eexists. split.
      * rewrite <- app_assoc. reflexivity.
      * rewrite length_app, length_map. cbn [List.length].
        pose proof (length_written
          (flat_map (raised (newPathData (pathData a) t)) evaluation_order) t).
        pose proof (length_raised_le (newPathData (pathData a) t)). lia.
    + rewrite (runOdasScan_blocked t a Hr). exists added.
      split; [reflexivity | cbn [List.length]; lia].
Qed.

(** X3: a scan that passes its guard writes the evaluator's records in
    order, each with the server timestamp, up to the first rejected
    [addDoc]: the records after it are dropped.  The status and the metrics
    of the scan do not depend on how the writes went. *)
Theorem failed_write_drops_the_rest :
  forall (t : Tick) (a : App),
    running a = true ->
    exists l,
      orchestrateControl (newPathData (pathData a) t) = inr l /\
      collection (runOdasScan t a)
      = (collection a
         ++ map (fun i => {| doc_fields := i;
                             doc_timestamp := serverTimestamp t |})
                (match writes_before_failure t with
                 | None => l
                 | Some k => firstn k l
                 end))%list /\
      forall w,
        odasStatus (runOdasScan (with_writes w t) a)
        = odasStatus (runOdasScan t a) /\
        pathData (runOdasScan (with_writes w t) a)
        = pathData (runOdasScan t a).
Proof.
  intros t a Hr. eexists. split; [apply orchestrateControl_raised|]. split.
  - apply (runOdasScan_collection t a Hr).
  - intros w. split.
    + rewrite !runOdasScan_odasStatus by exact Hr. reflexivity.
    + rewrite !runOdasScan_pathData by exact Hr. reflexivity.
Qed.

(** [failed_write_drops_the_rest] at a concrete input. *)
Lemma failed_write_drops_the_rest_witness :
  exists l,
    orchestrateControl
      (newPathData (pathData (readyApp alarming_snapshot))
                   (with_writes (Some 2%nat) middle_draws)) = inr l /\
    collection (runOdasScan (with_writes (Some 2%nat) middle_draws)
                            (readyApp alarming_snapshot))
    = (collection (readyApp alarming_snapshot)
       ++ map (fun i => {| doc_fields := i;
                           doc_timestamp :=
                             serverTimestamp
                               (with_writes (Some 2%nat) middle_draws) |})
              (firstn 2 l))%list.
Proof.
  destruct (failed_write_drops_the_rest
              (with_writes (Some 2%nat) middle_draws)
              (readyApp alarming_snapshot) eq_refl) as (l & Hl & Hc & _).
  exists l. split; [exact Hl | exact Hc].
Defined.

(** X15: if every document of the collection is a record of some metric
    with the path and the severity of that metric, this is still so after
    any scans. *)
Theorem log_holds_evaluator_documents :
  forall (ticks : list Tick) (a : App),
    Forall evaluator_doc (collection a) ->
    Forall evaluator_doc (collection (runScans ticks a)).
Proof.
  induction ticks as [|t ticks IH]; intros a H; [exact H|].
  cbn [runScans fold_left]. fold (runScans ticks (runOdasScan t a)).
  apply IH. destruct (running a) eqn:Hr.
  - rewrite (runOdasScan_collection t a Hr). apply Forall_app. split; [exact H|].
    apply Forall_forall. intros d Hd. apply in_map_iff in Hd as (r & <- & Hr').
    apply written_incl in Hr'. apply In_raised in Hr' as (m & _ & _ & ->).
    exists m. cbn [doc_fields stamp]. split.
    + now apply record_of_expected.
    + apply severity_expected.
  - now rewrite (runOdasScan_blocked t a Hr).
Qed.

(** [log_holds_evaluator_documents] at a concrete input. *)
Lemma log_holds_evaluator_documents_witness :
  Forall evaluator_doc
         (collection (runScans [middle_draws; middle_draws]
                               (readyApp alarming_snapshot))).
Proof. apply log_holds_evaluator_documents. constructor. Defined.

(** ** The sampler: NaN and the clamps *)

Lemma isNaN_inv (x : JS.number) : JS.isNaN x = true -> x = JS.NaN.
Proof. destruct x; try discriminate; reflexivity. Qed.

Lemma add_NaN_l (y : JS.number) : JS.add JS.NaN y = JS.NaN.
Proof. reflexivity. Qed.

Lemma min_step_NaN_r (l : JS.number) : JS.min_step l JS.NaN = JS.NaN.
Proof. destruct l as [[]|[]| |[] m e]; reflexivity. Qed.

Lemma max_step_NaN_r (l : JS.number) : JS.max_step l JS.NaN = JS.NaN.
Proof. destruct l as [[]|[]| |[] m e]; reflexivity. Qed.

Lemma Math_min_NaN (c : JS.number) : JS.Math_min [c; JS.NaN] = JS.NaN.
Proof. unfold JS.Math_min. cbn [fold_left]. apply min_step_NaN_r. Qed.

Lemma Math_max_NaN (c : JS.number) : JS.Math_max [c; JS.NaN] = JS.NaN.
Proof. unfold JS.Math_max. cbn [fold_left]. apply max_step_NaN_r. Qed.

Lemma Math_min_cap (c y : JS.number) :
  (exists m e, c = S754_finite false m e) ->
  JS.Math_min [c; y]
  = if JS.isNaN y then JS.NaN else if JS.lt y c then y else c.
Proof.
  intros (m & e & ->). unfold JS.Math_min. cbn [fold_left].
  rewrite min_step_Infinity.
  destruct y as [[]|[]| |[] my ey]; reflexivity.
Qed.

Lemma Math_max_floor (y : JS.number) :
  JS.Math_max [S754_zero false; y]
  = if JS.isNaN y then JS.NaN
    else if JS.gt y (S754_zero false) then y else S754_zero false.
Proof.
  unfold JS.Math_max. cbn [fold_left]. rewrite max_step_Infinity.
  destruct y as [[]|[]| |[] my ey]; reflexivity.
Qed.

Lemma newPathData_NaN (m : Metric) (p : PathData) (t : Tick) :
  JS.isNaN (JS.ToNumber (field m p)) = true ->
  field m (newPathData p t) = JS.Number JS.NaN.
Proof.
  intros H. apply isNaN_inv in H.
  destruct m; cbn [field] in H |- *; unfold newPathData;
    cbn [assetVolatility marketLiquidity systemLatency publicSentiment
         anomalyScore];
    rewrite H, add_NaN_l; f_equal;
    (apply Math_min_NaN || apply Math_max_NaN).
Qed.

(** X4: a metric that is missing or NaN is NaN after every later scan, and
    the evaluator raises no record of that metric on the scanned metrics. *)
Theorem NaN_metric_never_recovers :
  forall (m : Metric) (ticks : list Tick) (a : App),
    running a = true -> ticks <> [] ->
    JS.isNaN (JS.ToNumber (field m (pathData a))) = true ->
    field m (pathData (runScans ticks a)) = JS.Number JS.NaN /\
    exists l, orchestrateControl (pathData (runScans ticks a)) = inr l /\
              Forall (fun r => record_of m r = false) l.
Proof.
  intros m ticks a Hr Hne Hn.
  assert (F : field m (pathData (runScans ticks a)) = JS.Number JS.NaN).
  { revert a Hr Hn. induction ticks as [|t ticks IH]; intros a Hr Hn;
      [now elim Hne|].
    cbn [runScans fold_left]. fold (runScans ticks (runOdasScan t a)).
    assert (F1 : field m (pathData (runOdasScan t a)) = JS.Number JS.NaN)
      by (rewrite runOdasScan_pathData by exact Hr; now apply newPathData_NaN).
    destruct ticks as [|t' ticks']; [exact F1|].
    apply IH; [discriminate | now rewrite runOdasScan_running |].
    now rewrite F1. }
  split; [exact F|].
  eexists. split; [apply orchestrateControl_raised|].
  apply Forall_forall. intros r Hin.
  apply In_raised in Hin as (m' & _ & Hv & ->).
  destruct (record_of m (expected _ m')) eqn:E; [|reflexivity].
  apply record_of_expected in E. subst m'.
  unfold violates in Hv. rewrite F in Hv.
  destruct (bound_kind m); cbn [beyond] in Hv;
    [rewrite gt_NaN_l in Hv | rewrite lt_NaN_l in Hv]; discriminate.
Qed.

(** [NaN_metric_never_recovers] at a concrete input. *)
Lemma NaN_metric_never_recovers_witness :
  field Latency
        (pathData (runScans [middle_draws; low_draws]
                            (readyApp snapshot_without_latency)))
  = JS.Number JS.NaN /\
  exists l, orchestrateControl
              (pathData (runScans [middle_draws; low_draws]
                                  (readyApp snapshot_without_latency)))
            = inr l /\
            Forall (fun r => record_of Latency r = false) l.
Proof.
  apply NaN_metric_never_recovers; [reflexivity | discriminate | reflexivity].
Defined.

(** X5: a scan sets the field of every metric to its old value plus the
    drift of the tick, clamped on one side: capped at 0.5, 300, 1 and 1 for
    volatility, latency, sentiment and anomaly, floored at 0 for the
    liquidity, and NaN if the sum is NaN. *)
Theorem sampler_adds_drift_then_clamps :
  forall (m : Metric) (p : PathData) (t : Tick),
    field m (newPathData p t)
    = JS.Number (clamp m (JS.add (JS.ToNumber (field m p)) (drift m t))).
Proof.
  assert (Half : exists m e, JS.dec 5 10 = S754_finite false m e)
    by (do 2 eexists; vm_compute; reflexivity).
  assert (H300 : exists m e, JS.int 300 = S754_finite false m e)
    by (do 2 eexists; vm_compute; reflexivity).
  assert (H1 : exists m e, JS.int 1 = S754_finite false m e)
    by (do 2 eexists; vm_compute; reflexivity).
  intros m p t.
  destruct m; cbn [field drift]; unfold newPathData, clamp;
    cbn [assetVolatility marketLiquidity systemLatency publicSentiment
         anomalyScore]; f_equal;
    try (now apply Math_min_cap).
  apply Math_max_floor.
Qed.

(** ** Cards and evaluator *)

Lemma violates_beyond (p : PathData) (m : Metric) :
  violates p m = beyond (bound_kind m) (JS.ToNumber (field m p)) (threshold m).
Proof.
  unfold violates. destruct (field m p) as [|v]; [|reflexivity].
  cbn [JS.ToNumber]. destruct (bound_kind m); cbn [beyond];
    [now rewrite gt_NaN_l | now rewrite lt_NaN_l].
Qed.

Lemma existsb_raised (p : PathData) (m : Metric) :
  existsb (record_of m) (flat_map (raised p) evaluation_order) = violates p m.
Proof.
  destruct (violates p m) eqn:Hv.
  - apply existsb_exists. exists (expected p m). split.
    + apply In_raised. exists m. repeat split; [apply all_metrics | exact Hv].
    + now apply record_of_expected.
  - destruct (existsb _ _) eqn:E; [|reflexivity].
    apply existsb_exists in E as (r & Hr & Hm).
    apply In_raised in Hr as (m' & _ & Hv' & ->).
    apply record_of_expected in Hm. congruence.
Qed.

Lemma cards_violates (p : PathData) :
  map Panel.isCritical (Panel.cards p)
  = map (violates p) [Volatility; Latency; Sentiment; Anomaly].
Proof.
  cbn [map Panel.cards Panel.isCritical]. now rewrite !violates_beyond.
Qed.

(** X6: a card is rendered critical exactly when the evaluator, on the same
    metrics, returns a record of the card's metric. *)
Theorem red_cards_match_records :
  forall p : PathData, exists l,
    orchestrateControl p = inr l /\
    map Panel.isCritical (Panel.cards p)
    = map (fun m => existsb (record_of m) l)
          [Volatility; Latency; Sentiment; Anomaly].
Proof.
  intros p. eexists. split; [apply orchestrateControl_raised|].
  rewrite cards_violates. cbn [map]. now rewrite !existsb_raised.
Qed.

Lemma append_assoc' (a b c : string) : (a ++ b) ++ c = a ++ b ++ c.
Proof. induction a as [|x a IH]; cbn; [reflexivity | now rewrite IH]. Qed.

(** X7: for a record of volatility, liquidity or latency, the text that
    [displayValue] renders for that metric and unit occurs in the record's
    description. *)
Theorem card_text_occurs_in_description :
  forall p : PathData, exists l,
    orchestrateControl p = inr l /\
    forall r m,
      In r l -> record_of m r = true ->
      m = Volatility \/ m = Liquidity \/ m = Latency ->
      exists text,
        Panel.displayValue (field m p) (unit_of m) = inr text /\
        includes text (description r) = true.
Proof.
  intros p. eexists. split; [apply orchestrateControl_raised|].
  intros r m Hr Hm Hcase.
  apply In_raised in Hr as (m' & _ & Hv & ->).
  apply record_of_expected in Hm. subst m'.
  unfold violates in Hv. destruct (field m p) as [|v] eqn:Hf; [discriminate|].
  destruct Hcase as [->|[->| ->]];
    cbn [unit_of expected description field] in *; rewrite Hf;
    cbn [JS.ToNumber]; eexists; (split; [reflexivity|]);
    apply includes_spec.
  - exists "Volatilitas aset Kritis (", "). Memerlukan Chronos Executor (CE) Lock.".
    rewrite append_assoc'. reflexivity.
  - exists "Likuiditas rendah: ", ". Memerlukan injeksi dana/stabilisasi.".
    reflexivity.
  - exists "Latency sistem Kritis (", "). Memerlukan realokasi sumber daya I/O.".
    rewrite append_assoc'. reflexivity.
Qed.

(** [card_text_occurs_in_description] at a concrete input. *)
Lemma card_text_occurs_in_description_witness :
  exists l,
    orchestrateControl alarming_snapshot = inr l /\
    forall r, In r l -> record_of Latency r = true ->
      exists text,
        Panel.displayValue (field Latency alarming_snapshot) "ms" = inr text /\
        includes text (description r) = true.
Proof.
  destruct (card_text_occurs_in_description alarming_snapshot) as (l & Hl & H).
  exists l. split; [exact Hl|]. intros r Hr Hm.
  apply (H r Latency Hr Hm). right. right. reflexivity.
Defined.

(** X16: when a scan leaves the status "ODAS Operasional Normal", none of
    the four cards of the scanned metrics is critical.  The converse fails:
    a liquidity below its bound gives "Intervensi 1 Kritis" with no critical
    card, as no card shows the liquidity. *)
Theorem normal_status_means_no_red_card :
  (forall (t : Tick) (a : App),
      running a = true ->
      odasStatus (runOdasScan t a) = "ODAS Operasional Normal" ->
      Forall (fun c => Panel.isCritical c = false)
             (Panel.cards (pathData (runOdasScan t a))))
  /\ (odasStatus (runOdasScan middle_draws (readyApp illiquid_snapshot))
      = "Intervensi 1 Kritis" /\
      Forall (fun c => Panel.isCritical c = false)
             (Panel.cards (pathData (runOdasScan middle_draws
                                                 (readyApp illiquid_snapshot))))).
Proof.
  split.
  - intros t a Hr Hs.
    rewrite runOdasScan_odasStatus in Hs by exact Hr. cbv zeta in Hs.
    rewrite runOdasScan_pathData by exact Hr.
    set (p := newPathData (pathData a) t) in *.
    assert (E : flat_map (raised p) evaluation_order = []).
    { destruct (flat_map (raised p) evaluation_order) as [|r l];
        [reflexivity | discriminate Hs]. }
    assert (C : map Panel.isCritical (Panel.cards p)
                = [false; false; false; false]).
    { destruct (red_cards_match_records p) as (l & Hl & ->).
      rewrite orchestrateControl_raised, E in Hl. now injection Hl as <-. }
    cbn [Panel.cards map] in C. injection C as C1 C2 C3 C4.
    unfold Panel.cards. repeat constructor; cbn [Panel.isCritical]; assumption.
  - split; [vm_compute; reflexivity|].
    unfold Panel.cards. repeat constructor; cbn [Panel.isCritical];
      vm_compute; reflexivity.
Qed.

(** [normal_status_means_no_red_card] at a concrete input. *)
Lemma normal_status_means_no_red_card_witness :
  Forall (fun c => Panel.isCritical c = false)
         (Panel.cards (pathData (runOdasScan low_draws initialApp))).
Proof.
  apply (proj1 normal_status_means_no_red_card); [reflexivity|].
  vm_compute. reflexivity.
Defined.

(** ** Health, banner and colours *)

Lemma criticalCount_app (l more : list GCP.Fetched) :
  GCP.criticalCount (l ++ more)
  = (GCP.criticalCount l + GCP.criticalCount more)%nat.
Proof. unfold GCP.criticalCount. now rewrite filter_app, length_app. Qed.

Lemma alert_level_health (l : list GCP.Fetched) (prev : GCP.StrategicMetrics) :
  alert_level (GCP.systemHealth (GCP.onSnapshot l prev))
  = if (5 <? GCP.criticalCount l)%nat then 2%nat
    else if (0 <? GCP.criticalCount l)%nat then 1%nat else 0%nat.
Proof.
  unfold GCP.onSnapshot. cbn [GCP.systemHealth].
  destruct (5 <? _)%nat; [reflexivity|]. now destruct (0 <? _)%nat.
Qed.

Lemma alert_level_mono (n n' : nat) :
  (n <= n')%nat ->
  ((if (5 <? n)%nat then 2 else if (0 <? n)%nat then 1 else 0)
   <= (if (5 <? n')%nat then 2 else if (0 <? n')%nat then 1 else 0))%nat.
Proof.
  intros H.
  destruct (Nat.ltb_spec 5 n), (Nat.ltb_spec 0 n), (Nat.ltb_spec 5 n'),
    (Nat.ltb_spec 0 n'); lia.
Qed.

Lemma isCriticalBanner_count (l : list GCP.Fetched) :
  Panel.isCriticalBanner l = (0 <? GCP.criticalCount l)%nat.
Proof.
  unfold Panel.isCriticalBanner, GCP.criticalCount.
  induction l as [|i l IH]; [reflexivity|].
  cbn [existsb filter]. destruct (String.eqb (GCP.severity i) "Kritis");
    [reflexivity | exact IH].
Qed.

(** X8: on the same fetched interventions, the banner of the control panel
    is red exactly when the health of the Global Control Panel is not
    "Optimal". *)
Theorem banner_red_iff_health_not_optimal :
  forall (l : list GCP.Fetched) (prev : GCP.StrategicMetrics),
    Panel.bannerColor l = "bg-red-800" <->
    GCP.systemHealth (GCP.onSnapshot l prev) <> "Optimal".
Proof.
  intros l prev. unfold Panel.bannerColor. rewrite isCriticalBanner_count.
  unfold GCP.onSnapshot. cbn [GCP.systemHealth].
  destruct (Nat.ltb_spec 5 (GCP.criticalCount l)) as [H5|H5];
    destruct (Nat.ltb_spec 0 (GCP.criticalCount l)) as [H0|H0];
    try lia; split; intros H; try discriminate; try reflexivity.
  now elim H.
Qed.

(** X9: fetching more records never improves the health: the label of a
    log extended by further records is at least as alarmed. *)
Theorem health_never_improves_when_records_are_added :
  forall (l more : list GCP.Fetched) (prev prev' : GCP.StrategicMetrics),
    (alert_level (GCP.systemHealth (GCP.onSnapshot l prev))
     <= alert_level (GCP.systemHealth (GCP.onSnapshot (l ++ more) prev')))%nat.
Proof.
  intros l more prev prev'. rewrite !alert_level_health.
  apply alert_level_mono. rewrite criticalCount_app. lia.
Qed.

(** X10: the metrics derived from a snapshot do not depend on the order in
    which the documents are fetched. *)
Theorem health_ignores_document_order :
  forall (l l' : list GCP.Fetched) (prev : GCP.StrategicMetrics),
    Permutation l l' -> GCP.onSnapshot l prev = GCP.onSnapshot l' prev.
Proof.
  intros l l' prev H.
  assert (C : GCP.criticalCount l = GCP.criticalCount l').
  { rewrite !criticalCount_count_occ.
    apply Permutation_count_occ. now apply Permutation_map. }
  unfold GCP.onSnapshot. now rewrite C, (Permutation_length H).
Qed.

(** [health_ignores_document_order] at a concrete input. *)
Lemma health_ignores_document_order_witness :
  GCP.onSnapshot [entry "Kritis"; entry "Peringatan"] offline
  = GCP.onSnapshot [entry "Peringatan"; entry "Kritis"] offline.
Proof. apply health_ignores_document_order. apply perm_swap. Defined.

(** X11: after a snapshot the status colour is never the gray of the
    initial "Offline" health: it is red exactly above five Kritis records
    and green exactly with none. *)
Theorem status_colour_after_snapshot :
  (forall (l : list GCP.Fetched) (prev : GCP.StrategicMetrics),
      let colour :=
        Dashboard.statusColor (GCP.systemHealth (GCP.onSnapshot l prev)) in
      colour <> "bg-gray-700/80 border-gray-500" /\
      (colour = "bg-red-700/80 border-red-500" <-> 5 < GCP.criticalCount l) /\
      (colour = "bg-green-700/80 border-green-500" <-> GCP.criticalCount l = 0))%nat
  /\ Dashboard.statusColor (GCP.systemHealth Dashboard.initialMetrics)
     = "bg-gray-700/80 border-gray-500".
Proof.
  split; [|reflexivity].
  intros l prev colour. subst colour.
  unfold GCP.onSnapshot. cbn [GCP.systemHealth].
  destruct (Nat.ltb_spec 5 (GCP.criticalCount l)) as [H5|H5];
    destruct (Nat.ltb_spec 0 (GCP.criticalCount l)) as [H0|H0];
    try lia; cbn; repeat split; intros; try discriminate; try reflexivity;
    try lia.
Qed.

(** X12: the snapshot update and the mock asset update commute, a later
    snapshot replaces what an earlier one derived (nothing accumulates across
    snapshots), and the asset update applied twice is the asset update. *)
Theorem snapshot_and_asset_updates_commute :
  forall (l l' : list GCP.Fetched) (prev : GCP.StrategicMetrics),
    GCP.onSnapshot l (Dashboard.mockAssets prev)
    = Dashboard.mockAssets (GCP.onSnapshot l prev) /\
    GCP.onSnapshot l (GCP.onSnapshot l' prev) = GCP.onSnapshot l prev /\
    Dashboard.mockAssets (Dashboard.mockAssets prev) = Dashboard.mockAssets prev.
Proof. intros l l' prev. repeat split. Qed.

(** X17: let the fetched lists carry the severities of the collection, in
    any order, before and after some scans: the health derived after the
    scans is at least as alarmed as the health derived before. *)
Theorem health_never_improves_as_scans_run :
  forall (ticks : list Tick) (a : App) (fetched fetched' : list GCP.Fetched)
         (prev prev' : GCP.StrategicMetrics),
    Permutation (map GCP.severity fetched) (severities (collection a)) ->
    Permutation (map GCP.severity fetched')
                (severities (collection (runScans ticks a))) ->
    (alert_level (GCP.systemHealth (GCP.onSnapshot fetched prev))
     <= alert_level (GCP.systemHealth (GCP.onSnapshot fetched' prev')))%nat.
Proof.
  intros ticks a fetched fetched' prev prev' H H'.
  rewrite !alert_level_health. apply alert_level_mono.
  rewrite !criticalCount_count_occ.
  rewrite (proj1 (Permutation_count_occ string_dec _ _) H).
  rewrite (proj1 (Permutation_count_occ string_dec _ _) H').
  destruct (log_is_append_only ticks a) as (added & -> & _).
  unfold severities. rewrite map_app, count_occ_app. lia.
Qed.

(** [health_never_improves_as_scans_run] at a concrete input. *)
Lemma health_never_improves_as_scans_run_witness :
  (alert_level (GCP.systemHealth (GCP.onSnapshot [] offline))
   <= alert_level (GCP.systemHealth (GCP.onSnapshot
        [entry "Kritis"; entry "Peringatan"; entry "Kritis";
         entry "Peringatan"; entry "Kritis"] offline)))%nat.
Proof.
  apply (health_never_improves_as_scans_run
           [middle_draws] (readyApp alarming_snapshot)).
  - apply Permutation_refl.
  - vm_compute. apply Permutation_refl.
Defined.

(** ** The collection path *)

Lemma length_append (a b : string) :
  String.length (a ++ b) = (String.length a + String.length b)%nat.
Proof. induction a as [|x a IH]; cbn; [reflexivity | now rewrite IH]. Qed.

Lemma append_inv_head (a s s' : string) : a ++ s = a ++ s' -> s = s'.
Proof.
  induction a as [|x a IH]; cbn; intros H; [exact H|].
  injection H as H. now apply IH.
Qed.

Lemma append_inv_tail (a b s : string) : a ++ s = b ++ s -> a = b.
Proof.
  revert b. induction a as [|x a IH]; intros [|y b] H; cbn in H.
  - reflexivity.
  - apply (f_equal String.length) in H. cbn in H.
    rewrite length_append in H. lia.
  - apply (f_equal String.length) in H. cbn in H.
    rewrite length_append in H. lia.
  - injection H as -> H. f_equal. now apply IH.
Qed.

(** X13: the collection reference is [null] exactly while [db] is not set
    or [userId] is [null] or empty; for one app id, two users with the same
    collection path are the same user. *)
Theorem collection_ref_is_per_user :
  (forall db userId app,
      Firebase.interventionCollectionRef db userId app = None <->
      db = false \/ userId = None \/ userId = Some "")
  /\ (forall app u u' ref,
        Firebase.interventionCollectionRef true (Some u) app = Some ref ->
        Firebase.interventionCollectionRef true (Some u') app = Some ref ->
        u = u').
Proof.
  split.
  - intros db userId app. unfold Firebase.interventionCollectionRef.
    destruct userId as [uid|]; [|intuition].
    destruct db; cbn [negb orb].
    + destruct (String.eqb_spec uid "") as [->|N].
      * intuition.
      * split; [discriminate|]. intros [H|[H|H]]; try discriminate.
        injection H as ->. now elim N.
    + intuition.
  - intros app u u' ref. unfold Firebase.interventionCollectionRef.
    cbn [negb orb].
    destruct (String.eqb u ""), (String.eqb u' ""); try discriminate.
    intros H H'. rewrite <- H' in H. injection H as H.
    apply append_inv_head in H. cbn [append] in H.
    repeat (injection H as H).
    now apply append_inv_tail in H.
Qed.

(** [collection_ref_is_per_user] at a concrete input. *)
Lemma collection_ref_is_per_user_witness :
  Firebase.interventionCollectionRef true (Some "uid-1") None
  = Some "artifacts/default-app-id/users/uid-1/odas_interventions" /\
  forall u', Firebase.interventionCollectionRef true (Some u') None
             = Some "artifacts/default-app-id/users/uid-1/odas_interventions" ->
             "uid-1" = u'.
Proof.
  split; [reflexivity|]. intros u' H.
  apply (proj2 collection_ref_is_per_user None "uid-1" u' _ eq_refl H).
Defined.

(** ** At most one record per metric *)

Lemma Metric_eq_dec (m m' : Metric) : {m = m'} + {m <> m'}.
Proof. decide equality. Defined.

Lemma filter_raised_le (s : PathData) (m : Metric) (ms : list Metric) :
  (List.length (filter (record_of m) (flat_map (raised s) ms))
   <= count_occ Metric_eq_dec ms m)%nat.
Proof.
  induction ms as [|m' ms IH]; [reflexivity|].
  cbn [flat_map count_occ]. rewrite filter_app, length_app.
  assert (H : (List.length (filter (record_of m) (raised s m'))
               <= if Metric_eq_dec m' m then 1 else 0)%nat).
  { unfold raised. destruct (violates s m'); [|cbn; lia].
    cbn [filter]. destruct (record_of m (expected s m')) eqn:E.
    - apply record_of_expected in E. subst m'.
      destruct (Metric_eq_dec m m); [reflexivity | contradiction].
    - cbn. lia. }
  destruct (Metric_eq_dec m' m); lia.
Qed.

(** X14: the evaluator returns at most five records, and at most one
    record of each metric. *)
Theorem at_most_one_record_per_metric :
  forall s : PathData, exists l,
    orchestrateControl s = inr l /\
    (List.length l <= 5)%nat /\
    forall m, (List.length (filter (record_of m) l) <= 1)%nat.
Proof.
  intros s. eexists. split; [apply orchestrateControl_raised|]. split.
  - apply length_raised_le.
  - intros m.
    apply (Nat.le_trans _ _ _ (filter_raised_le s m evaluation_order)).
    destruct m; reflexivity.
Qed.

(** ** Rendering a card, pinned metrics, and the status line *)

(** X18: rendering a card throws exactly when its value is missing and its
    unit is not "%"; a missing percentage renders as "NaN%". *)
Theorem card_throws_only_on_missing_value :
  forall (v : JS.Value) (unit : string),
    (exists e, Panel.displayValue v unit = inl e) <->
    v = JS.Undefined /\ unit <> "%".
Proof.
  intros v unit. unfold Panel.displayValue.
  destruct (String.eqb_spec unit "$") as [->|Hd].
  - destruct v as [|x]; cbn; split.
    + intros _. split; [reflexivity | discriminate].
    + intros _. now exists JS.TypeError.
    + intros [e H]. discriminate.
    + intros [H _]. discriminate.
  - destruct (String.eqb_spec unit "%") as [->|Hp].
    + split; [intros [e H]; discriminate | intros [_ H]; now elim H].
    + destruct v as [|x]; cbn; split.
      * intros _. now split.
      * intros _. now exists JS.TypeError.
      * intros [e H]. discriminate.
      * intros [H _]. discriminate.
Qed.

(** [card_throws_only_on_missing_value] at a concrete input. *)
Lemma card_throws_only_on_missing_value_witness :
  exists e, Panel.displayValue JS.Undefined "ms" = inl e.
Proof.
  apply (proj2 (card_throws_only_on_missing_value JS.Undefined "ms")).
  split; [reflexivity | discriminate].
Defined.

(** X19: when the drifted value of a metric is a number at or beyond its
    clamp, the scanned metrics raise a record of that metric, except for the
    sentiment, whose cap of 1 lies on the safe side of its bound. *)
Theorem pinned_metric_raises_record :
  forall (m : Metric) (p : PathData) (t : Tick),
    pinned m (JS.add (JS.ToNumber (field m p)) (drift m t)) = true ->
    exists l,
      orchestrateControl (newPathData p t) = inr l /\
      existsb (record_of m) l
      = match m with Sentiment => false | _ => true end.
Proof.
  intros m p t H. eexists. split; [apply orchestrateControl_raised|].
  rewrite existsb_raised. unfold violates.
  rewrite sampler_adds_drift_then_clamps.
  unfold pinned in H. apply andb_true_iff in H as [Hn H].
  apply negb_true_iff in Hn. unfold clamp. rewrite Hn.
  destruct m; apply negb_true_iff in H; rewrite H;
    cbn [bound_kind threshold beyond]; vm_compute; reflexivity.
Qed.

(** [pinned_metric_raises_record] at a concrete input. *)
Lemma pinned_metric_raises_record_witness :
  exists l,
    orchestrateControl (newPathData saturated_snapshot high_draws) = inr l /\
    existsb (record_of Volatility) l = true.
Proof.
  apply (pinned_metric_raises_record Volatility saturated_snapshot high_draws).
  vm_compute. reflexivity.
Defined.

(** X20: after a scan that passes its guard the status is "ODAS
    Operasional Normal" or "Intervensi N Kritis" with N from 1 to 5. *)
Theorem status_is_one_of_six :
  forall (t : Tick) (a : App),
    running a = true ->
    In (odasStatus (runOdasScan t a))
       ["ODAS Operasional Normal"; "Intervensi 1 Kritis";
        "Intervensi 2 Kritis"; "Intervensi 3 Kritis";
        "Intervensi 4 Kritis"; "Intervensi 5 Kritis"].
Proof.
  intros t a Hr. rewrite runOdasScan_odasStatus by exact Hr. cbv zeta.
  pose proof (length_raised_le (newPathData (pathData a) t)) as Hlen.
  destruct (flat_map _ _) as [|r1 [|r2 [|r3 [|r4 [|r5 [|r6 l]]]]]];
    cbn [List.length] in Hlen; try lia; cbn; auto 7.
Qed.

(** [status_is_one_of_six] at a concrete input. *)
Lemma status_is_one_of_six_witness :
  In (odasStatus (runOdasScan middle_draws (readyApp alarming_snapshot)))
     ["ODAS Operasional Normal"; "Intervensi 1 Kritis";
      "Intervensi 2 Kritis"; "Intervensi 3 Kritis";
      "Intervensi 4 Kritis"; "Intervensi 5 Kritis"].
Proof. apply status_is_one_of_six. reflexivity. Defined.
